(** * FireANTs registration helper of NiChart_sopNMF

    A shallow embedding of [src/utils/util_fireants.py]: the profile table
    [_get_profile_params] and the orchestrator [run_fireants_registration],
    which drives the FireANTs library (moments, affine and greedy deformable
    registration) and writes the ANTs-compatible outputs.

    Conventions of the embedding.
    - A Python [int] is a [Z]; a tuple or list of ints is a [list Z].
    - A float literal ([3e-3], [0.5], [1.0]) is the rational it denotes.
    - A Python [str] is the [string] of its UTF-8 bytes. [str.lower] is a
      Python builtin: it is a parameter (class [StrLower]) of which only the
      behaviour on ASCII text is fixed.
    - The FireANTs library is not part of the repository: its classes are an
      interface (record [FireANTs]) of functions that may raise.
      [BatchedImages([img])], [FakeBatchedImages(t, batch)] and
      [Tensor.detach()] only wrap or rename their argument: they are values
      of the embedding, not calls.
    - The file system is a finite map from paths to file contents; standard
      output is the list of the lines printed, and [print] raises on a line
      the stream cannot encode. *)

From Stdlib Require Import ZArith QArith Ascii String List Bool Sorted.
From stdpp Require Import gmap strings list fin_maps.

Local Open Scope string_scope.
Local Open Scope Z_scope.

(* ===================================================================== *)
(** ** Python strings *)
(* ===================================================================== *)

Module PyStr.

(** Lowercasing of one ASCII character: 'A'..'Z' move to 'a'..'z'. *)
Definition lower_ascii (c : ascii) : ascii :=
  let n := nat_of_ascii c in
  if ((65 <=? n) && (n <=? 90))%nat then ascii_of_nat (n + 32) else c.

(** Lowercasing of ASCII text, character by character. *)
Fixpoint ascii_lower (s : string) : string :=
  match s with
  | EmptyString => EmptyString
  | String c rest => String (lower_ascii c) (ascii_lower rest)
  end.

(** A string of ASCII characters only: every byte is below 128. *)
Fixpoint is_ascii (s : string) : bool :=
  match s with
  | EmptyString => true
  | String c rest => (nat_of_ascii c <? 128)%nat && is_ascii rest
  end.

End PyStr.

(** [str.lower]. On a string of ASCII characters it lowercases 'A'..'Z' and
    leaves every other character; what it does to text with other
    characters (the Unicode case mapping) is left to the instance. *)
Class StrLower := {
  str_lower : string -> string;
  str_lower_ascii :
    forall s : string, PyStr.is_ascii s = true -> str_lower s = PyStr.ascii_lower s
}.

(* ===================================================================== *)
(** ** Profiles *)
(* ===================================================================== *)

(** The tuple [(scales, iterations, affine_lr, deform_lr)] that
    [_get_profile_params] returns. *)
Record ProfileParams := mkParams {
  scales : list Z;
  iterations : list Z;
  affine_lr : Q;
  deform_lr : Q
}.

Definition _get_profile_params {py : StrLower} (profile : string) : ProfileParams :=
  let profile := str_lower profile in
  if String.eqb profile "test" then
    mkParams [4; 2; 1] [8; 2; 0] (3 # 1000) (1 # 2)
  else if String.eqb profile "quick" then
    mkParams [4; 2; 1] [100; 50; 0] (3 # 1000) (1 # 2)
  else if String.eqb profile "balanced" then
    mkParams [4; 2; 1] [50; 50; 25] (3 # 1000) (1 # 2)
  else
    mkParams [4; 2; 1] [200; 100; 50] (3 # 1000) (1 # 2).

(** Lines 163-165 of the orchestrator: the deformable stage copies the
    iteration budgets and shortens the last one.
<<
    deform_iterations = list(iterations)
    if len(deform_iterations) >= 3 and deform_iterations[-1] > 25:
        deform_iterations[-1] = 25
>>
    The index [-1] is [len - 1]; it is only read when the length test passed,
    so the lookup cannot be out of range. *)
Definition deform_iterations_of (iterations : list Z) : list Z :=
  let deform_iterations := iterations in
  let n := length deform_iterations in
  if (3 <=? n)%nat then
    match deform_iterations !! (n - 1)%nat with
    | Some x => if (25 <? x)%Z then <[(n - 1)%nat := 25]> deform_iterations
                else deform_iterations
    | None => deform_iterations
    end
  else deform_iterations.

(** Strictly decreasing lists of integers (coarsest scale first). *)
Fixpoint strictly_decreasing (l : list Z) : bool :=
  match l with
  | x :: ((y :: _) as rest) => (y <? x) && strictly_decreasing rest
  | _ => true
  end.


(* ===================================================================== *)
(** ** Exceptions, the world, and the monad of the orchestrator *)
(* ===================================================================== *)

(** A Python call either returns a value or raises; the exception is kept
    by name. *)
Inductive outcome (A : Type) : Type :=
| Returns (a : A)
| Raises (e : string).
Arguments Returns {A} a.
Arguments Raises {A} e.

Section Registration.

Context {py : StrLower}.

(** The values FireANTs hands back: a loaded [Image], a torch tensor, and
    the three registration objects (after construction or optimisation). *)
Context {image tensor moments_t affine_t greedy_t : Type}.

(** [FakeBatchedImages(tensor, batch)]: a tensor with the geometry of an
    existing batch. [BatchedImages([img])] is the list [[img]]. *)
Record FakeBatchedImages := mkFake {
  fake_tensor : tensor;
  fake_like : list image
}.

(** What a file holds: an input volume, an image written by [write_image],
    or a transform written by [save_as_ants_transforms]. *)
Inductive File :=
| FileVolume (v : image)
| FileImage (b : FakeBatchedImages)
| FileMomentsTransform (m : moments_t)
| FileAffineTransform (a : affine_t)
| FileWarp (g : greedy_t) (save_inverse : bool).

(** Keyword arguments of [MomentsRegistration(...)], lines 109-119. *)
Record MomentsConfig := mkMomentsConfig {
  m_scale : Q;
  m_fixed_images : list image;
  m_moving_images : list image;
  m_moments : Z;
  m_orientation : string;
  m_blur : bool;
  m_loss_type : string;
  m_cc_kernel_type : string;
  m_cc_kernel_size : Z
}.

(** Keyword arguments of [AffineRegistration(...)], lines 139-149. *)
Record AffineConfig := mkAffineConfig {
  a_scales : list Z;
  a_iterations : list Z;
  a_fixed_images : list image;
  a_moving_images : list image;
  a_init_rigid : option tensor;
  a_loss_type : string;
  a_optimizer : string;
  a_optimizer_lr : Q;
  a_cc_kernel_size : Z
}.

(** Keyword arguments of [GreedyRegistration(...)], lines 167-179. The
    keyword [smooth_warp_sigma] is commented out in the source, so it is not
    passed and has no field here. *)
Record GreedyConfig := mkGreedyConfig {
  g_scales : list Z;
  g_iterations : list Z;
  g_fixed_images : list image;
  g_moving_images : list image;
  g_cc_kernel_size : Z;
  g_deformation_type : string;
  g_optimizer : string;
  g_optimizer_lr : Q;
  g_smooth_grad_sigma : Q;
  g_init_affine : tensor
}.

(** The part of FireANTs (and of the operating system) the orchestrator
    calls. Every call is a function of its arguments and may raise.
    [writable p] tells whether a write to path [p] succeeds, and
    [partial_write p f] what a failed write of [f] leaves at [p]: nothing
    new ([None]) or some partial file. [printable s] tells whether standard
    output can encode the line [s]. *)
Record FireANTs := mkFireANTs {
  Image_load_file : option File -> outcome image;
  MomentsRegistration : MomentsConfig -> outcome moments_t;
  moments_optimize : moments_t -> outcome moments_t;
  moments_get_affine_init : moments_t -> outcome tensor;
  moments_evaluate : moments_t -> list image -> list image -> outcome tensor;
  AffineRegistration : AffineConfig -> outcome affine_t;
  affine_optimize : affine_t -> outcome affine_t;
  affine_get_affine_matrix : affine_t -> outcome tensor;
  GreedyRegistration : GreedyConfig -> outcome greedy_t;
  greedy_optimize : greedy_t -> outcome greedy_t;
  greedy_evaluate : greedy_t -> list image -> list image -> outcome tensor;
  detach : tensor -> tensor;
  writable : string -> bool;
  partial_write : string -> File -> option File;
  printable : string -> bool
}.

(** The library calls the orchestrator makes, in the order it makes them. *)
Inductive Call :=
| CLoad (path : string)
| CMomentsNew (cfg : MomentsConfig)
| CMomentsOptimize
| CMomentsGetAffineInit
| CMomentsSave (paths : list string)
| CMomentsEvaluate
| CWriteImage (path : string)
| CAffineNew (cfg : AffineConfig)
| CAffineOptimize
| CAffineGetMatrix
| CAffineSave (paths : list string)
| CGreedyNew (cfg : GreedyConfig)
| CGreedyOptimize
| CGreedyEvaluate
| CGreedySave (paths : list string) (save_inverse : bool).

(** The world a run acts on: the file system, the log of library calls and
    what was printed. *)
Record World := mkWorld {
  files : gmap string File;
  calls : list Call;
  stdout : list string
}.

(** State and exception monad. The world reached when an exception is raised
    is kept: nothing in the source rolls it back. *)
Definition M (A : Type) : Type := World -> outcome A * World.

Definition ret {A} (a : A) : M A := fun w => (Returns a, w).

Definition bind {A B} (c : M A) (k : A -> M B) : M B :=
  fun w =>
    match c w with
    | (Returns a, w') => k a w'
    | (Raises e, w') => (Raises e, w')
    end.

Notation "'let*' x ':=' c 'in' k" := (bind c (fun x => k))
  (at level 10, x name, c at level 100, k at level 200).
Notation "c ';;;' k" := (bind c (fun _ => k))
  (at level 100, k at level 200, right associativity).

Definition log (c : Call) : M unit :=
  fun w => (Returns tt, mkWorld (files w) (calls w ++ [c]) (stdout w)).

Definition lift {A} (r : outcome A) : M A := fun w => (r, w).

(** A logged library call. *)
Definition call {A} (c : Call) (r : outcome A) : M A :=
  log c ;;; lift r.

Variable lib : FireANTs.

(** [print(s)]: one more line on standard output, or [UnicodeEncodeError]
    when the stream cannot encode [s], in which case nothing is printed. *)
Definition print (s : string) : M unit :=
  fun w =>
    if printable lib s
    then (Returns tt, mkWorld (files w) (calls w) (stdout w ++ [s]))
    else (Raises "UnicodeEncodeError", w).

(** [Image.load_file(path)]: reads the file at [path]. *)
Definition load_file (path : string) : M image :=
  log (CLoad path) ;;;
  fun w => (Image_load_file lib (files w !! path), w).

(** One file written at [path]: it is there afterwards, or the write
    raises. The library writes straight to [path], so a failed write may
    leave a partial file there; no other path is touched. *)
Definition write_file (path : string) (f : File) : M unit :=
  fun w =>
    if writable lib path
    then (Returns tt, mkWorld (<[path := f]> (files w)) (calls w) (stdout w))
    else (Raises "OSError",
          mkWorld (match partial_write lib path f with
                   | Some g => <[path := g]> (files w)
                   | None => files w
                   end)
                  (calls w) (stdout w)).

(** [save_as_ants_transforms(paths)]: one file per path. The moments call
    passes a bare string, which the library takes as a one-element list. *)
Fixpoint write_each (paths : list string) (f : File) : M unit :=
  match paths with
  | [] => ret tt
  | p :: rest => write_file p f ;;; write_each rest f
  end.

Definition write_image (b : FakeBatchedImages) (path : string) : M unit :=
  log (CWriteImage path) ;;; write_file path (FileImage b).

(** The six output paths, in the order the source writes them. *)
Definition moments_path (out_prefix : string) := out_prefix +:+ "MomentsInit.mat".
Definition moved_moments_path (out_prefix : string) := out_prefix +:+ "MomentsWarped.nii.gz".
Definition affine_path (out_prefix : string) := out_prefix +:+ "0GenericAffine.mat".
Definition moved_path (out_prefix : string) := out_prefix +:+ "Warped.nii.gz".
Definition forward_warp_path (out_prefix : string) := out_prefix +:+ "Def.nii.gz".
Definition inverse_warp_path (out_prefix : string) := out_prefix +:+ "InvDef.nii.gz".

(** The progress messages, in the order the source prints them. *)
Definition msg_moments_run (profile : string) :=
  "[FireANTs] Running moments initialization (profile='" +:+ profile +:+ "')".
Definition msg_moments_write (out_prefix : string) :=
  "[FireANTs] Writing moments init transform (ANTs format) to: "
  +:+ moments_path out_prefix.
Definition msg_moments_moved (out_prefix : string) :=
  "[FireANTs] Writing moments-warped image to: " +:+ moved_moments_path out_prefix.
Definition msg_affine_run (profile : string) :=
  "[FireANTs] Running affine registration with profile='" +:+ profile +:+ "'".
Definition msg_affine_write (out_prefix : string) :=
  "[FireANTs] Writing affine transform (ANTs format) to: " +:+ affine_path out_prefix.
Definition msg_deformable_run (profile : string) :=
  "[FireANTs] Running deformable registration with profile='" +:+ profile +:+ "'".
Definition msg_moved_write (out_prefix : string) :=
  "[FireANTs] Writing moved image to: " +:+ moved_path out_prefix.
Definition msg_forward_write (out_prefix : string) :=
  "[FireANTs] Writing forward deformation (ANTs format) to: "
  +:+ forward_warp_path out_prefix.
Definition msg_inverse_write (out_prefix : string) :=
  "[FireANTs] Writing inverse deformation (ANTs format) to: "
  +:+ inverse_warp_path out_prefix.

Definition moments_config (fixed_batch moving_batch : list image) : MomentsConfig :=
  {| m_scale := 1;
     m_fixed_images := fixed_batch;
     m_moving_images := moving_batch;
     m_moments := 2;
     m_orientation := "rot";
     m_blur := false;
     m_loss_type := "fusedcc";
     m_cc_kernel_type := "rectangular";
     m_cc_kernel_size := 5 |}.

Definition affine_config (p : ProfileParams) (fixed_batch moving_batch : list image)
    (init_rigid : option tensor) : AffineConfig :=
  {| a_scales := scales p;
     a_iterations := iterations p;
     a_fixed_images := fixed_batch;
     a_moving_images := moving_batch;
     a_init_rigid := init_rigid;
     a_loss_type := "cc";
     a_optimizer := "Adam";
     a_optimizer_lr := affine_lr p;
     a_cc_kernel_size := 5 |}.

Definition greedy_config (p : ProfileParams) (fixed_batch moving_batch : list image)
    (init_affine : tensor) : GreedyConfig :=
  {| g_scales := scales p;
     g_iterations := deform_iterations_of (iterations p);
     g_fixed_images := fixed_batch;
     g_moving_images := moving_batch;
     g_cc_kernel_size := 5;
     g_deformation_type := "compositive";
     g_optimizer := "Adam";
     g_optimizer_lr := deform_lr p;
     g_smooth_grad_sigma := 1 # 2;
     g_init_affine := init_affine |}.

(** Lines 108-134: the optional moments block. It yields the value of
    [init_rigid] after the block: [None] when the block is skipped. *)
Definition moments_stage (out_prefix profile : string) (do_moments : bool)
    (fixed_batch moving_batch : list image) : M (option tensor) :=
  if do_moments then
    let cfg := moments_config fixed_batch moving_batch in
    let* moments := call (CMomentsNew cfg) (MomentsRegistration lib cfg) in
    print (msg_moments_run profile) ;;;
    let* moments := call CMomentsOptimize (moments_optimize lib moments) in
    let* t := call CMomentsGetAffineInit (moments_get_affine_init lib moments) in
    let init_rigid := detach lib t in
    print (msg_moments_write out_prefix) ;;;
    log (CMomentsSave [moments_path out_prefix]) ;;;
    write_each [moments_path out_prefix] (FileMomentsTransform moments) ;;;
    let* moved_moments :=
      call CMomentsEvaluate (moments_evaluate lib moments fixed_batch moving_batch) in
    let moved_moments_batch := mkFake moved_moments fixed_batch in
    print (msg_moments_moved out_prefix) ;;;
    write_image moved_moments_batch (moved_moments_path out_prefix) ;;;
    ret (Some init_rigid)
  else ret None.

(** Lines 139-157: affine registration and its transform file. It yields
    [init_affine]. *)
Definition affine_stage (out_prefix profile : string) (p : ProfileParams)
    (fixed_batch moving_batch : list image) (init_rigid : option tensor) : M tensor :=
  let cfg := affine_config p fixed_batch moving_batch init_rigid in
  let* affine := call (CAffineNew cfg) (AffineRegistration lib cfg) in
  print (msg_affine_run profile) ;;;
  let* affine := call CAffineOptimize (affine_optimize lib affine) in
  let* t := call CAffineGetMatrix (affine_get_affine_matrix lib affine) in
  let init_affine := detach lib t in
  print (msg_affine_write out_prefix) ;;;
  log (CAffineSave [affine_path out_prefix]) ;;;
  write_each [affine_path out_prefix] (FileAffineTransform affine) ;;;
  ret init_affine.

(** Lines 162-182: greedy deformable registration. It yields the optimised
    registration object [reg]. *)
Definition deformable_stage (profile : string) (p : ProfileParams)
    (fixed_batch moving_batch : list image) (init_affine : tensor) : M greedy_t :=
  let cfg := greedy_config p fixed_batch moving_batch init_affine in
  let* reg := call (CGreedyNew cfg) (GreedyRegistration lib cfg) in
  print (msg_deformable_run profile) ;;;
  call CGreedyOptimize (greedy_optimize lib reg).

(** Lines 187-204: the moved image and the two warps. *)
Definition export_stage (out_prefix : string) (reg : greedy_t)
    (fixed_batch moving_batch : list image) : M unit :=
  let* moved := call CGreedyEvaluate (greedy_evaluate lib reg fixed_batch moving_batch) in
  let moved_batch := mkFake moved fixed_batch in
  print (msg_moved_write out_prefix) ;;;
  write_image moved_batch (moved_path out_prefix) ;;;
  print (msg_forward_write out_prefix) ;;;
  log (CGreedySave [forward_warp_path out_prefix] false) ;;;
  write_each [forward_warp_path out_prefix] (FileWarp reg false) ;;;
  print (msg_inverse_write out_prefix) ;;;
  log (CGreedySave [inverse_warp_path out_prefix] true) ;;;
  write_each [inverse_warp_path out_prefix] (FileWarp reg true).

Definition run_fireants_registration
    (fixed_path moving_path out_prefix profile : string) (do_moments : bool) : M unit :=
  let p := _get_profile_params profile in
  let* fixed_img := load_file fixed_path in
  let* moving_img := load_file moving_path in
  let fixed_batch := [fixed_img] in
  let moving_batch := [moving_img] in
  let* init_rigid := moments_stage out_prefix profile do_moments fixed_batch moving_batch in
  let* init_affine := affine_stage out_prefix profile p fixed_batch moving_batch init_rigid in
  let* reg := deformable_stage profile p fixed_batch moving_batch init_affine in
  export_stage out_prefix reg fixed_batch moving_batch.

End Registration.

Arguments File : clear implicits.
Arguments FireANTs : clear implicits.
Arguments World : clear implicits.
Arguments Call : clear implicits.

(* ===================================================================== *)
(** ** The command line *)
(* ===================================================================== *)

(** What [parser.parse_args()] hands to [main]: the three required paths,
    [--profile] (the parser's default is "default") and the [--no-moments]
    switch. Parsing itself is [argparse]'s. *)
Record Namespace := mkNamespace {
  ns_fixed : string;
  ns_moving : string;
  ns_out_prefix : string;
  ns_profile : string;
  ns_no_moments : bool
}.

(** Lines 242-252 of [main]. [abspath] is [os.path.abspath] for the current
    directory of the process. *)
Definition main {py : StrLower} {image tensor moments_t affine_t greedy_t : Type}
    (abspath : string -> string)
    (lib : FireANTs image tensor moments_t affine_t greedy_t)
    (args : Namespace) : @M image tensor moments_t affine_t greedy_t unit :=
  let fixed := abspath (ns_fixed args) in
  let moving := abspath (ns_moving args) in
  let out_prefix := abspath (ns_out_prefix args) in
  run_fireants_registration lib fixed moving out_prefix (ns_profile args)
    (negb (ns_no_moments args)).

(* ===================================================================== *)
(** ** A small concrete library, to run the orchestrator on *)
(* ===================================================================== *)

Module Demo.

(** Every FireANTs value is the name of what it stands for. A volume file
    loads to its content, anything else is refused. [greedy_ok],
    [writes_ok] and [prints_ok] choose whether the deformable optimisation,
    the writes and the prints succeed; a failed write leaves a truncated
    file. *)
Definition load (f : option (File string string string string string)) : outcome string :=
  match f with
  | Some (FileVolume v) => Returns v
  | Some _ => Raises "ValueError"
  | None => Raises "FileNotFoundError"
  end.

Definition lib (greedy_ok : bool) (writes_ok prints_ok : string -> bool)
  : FireANTs string string string string string :=
  {| Image_load_file := load;
     MomentsRegistration := fun _ => Returns "moments";
     moments_optimize := fun m => Returns (m +:+ "*");
     moments_get_affine_init := fun m => Returns (m +:+ ".rigid");
     moments_evaluate := fun m _ _ => Returns (m +:+ ".moved");
     AffineRegistration := fun _ => Returns "affine";
     affine_optimize := fun a => Returns (a +:+ "*");
     affine_get_affine_matrix := fun a => Returns (a +:+ ".matrix");
     GreedyRegistration := fun _ => Returns "greedy";
     greedy_optimize := fun g =>
       if greedy_ok then Returns (g +:+ "*") else Raises "RuntimeError";
     greedy_evaluate := fun g _ _ => Returns (g +:+ ".moved");
     detach := fun t => t;
     writable := writes_ok;
     partial_write := fun _ _ => Some (FileVolume "truncated");
     printable := prints_ok |}.

Definition inputs : gmap string (File string string string string string) :=
  <["fixed.nii.gz" := FileVolume "template"]>
    (<["moving.nii.gz" := FileVolume "subject"]> ∅).

Definition w0 : World string string string string string := mkWorld inputs [] [].

(** Everything succeeds. *)
Definition working := lib true (fun _ => true) (fun _ => true).

(** The deformable optimisation raises; every write succeeds. *)
Definition deformable_fails := lib false (fun _ => true) (fun _ => true).

(** Everything succeeds but the write of the forward warp at prefix "out_". *)
Definition forward_write_fails :=
  lib true (fun p => negb (String.eqb p "out_Def.nii.gz")) (fun _ => true).

(** Everything succeeds, on a standard output that encodes ASCII only. *)
Definition ascii_terminal := lib true (fun _ => true) PyStr.is_ascii.

(** A [str.lower] that knows ASCII and one more character: U+212A KELVIN
    SIGN (bytes 226 132 170 in UTF-8), whose lowercase is 'k'. *)
Fixpoint kelvin_lower (s : string) : string :=
  match s with
  | EmptyString => EmptyString
  | String c s1 =>
      match s1 with
      | String c2 (String c3 rest) =>
          if ((nat_of_ascii c =? 226) && (nat_of_ascii c2 =? 132)
              && (nat_of_ascii c3 =? 170))%nat
          then String "k" (kelvin_lower rest)
          else String (PyStr.lower_ascii c) (kelvin_lower s1)
      | _ => String (PyStr.lower_ascii c) (kelvin_lower s1)
      end
  end.

Definition lower (s : string) : string :=
  if PyStr.is_ascii s then PyStr.ascii_lower s else kelvin_lower s.

Definition python : StrLower :=
  {| str_lower := lower;
     str_lower_ascii := fun s H =>
       @eq_ind_r bool true
         (fun b : bool =>
            (if b then PyStr.ascii_lower s else kelvin_lower s) = PyStr.ascii_lower s)
         eq_refl (PyStr.is_ascii s) H |}.

(** "QUIC" followed by the Kelvin sign. *)
Definition quic_kelvin : string :=
  "QUIC" +:+ String (ascii_of_nat 226)
               (String (ascii_of_nat 132) (String (ascii_of_nat 170) EmptyString)).

(** [os.path.abspath] for a process started in [/work], on plain relative
    file names. *)
Definition abspath (path : string) : string := "/work/" +:+ path.

(** The input files of a process started in [/work]. *)
Definition w_work : World string string string string string :=
  mkWorld (<["/work/fixed.nii.gz" := FileVolume "template"]>
             (<["/work/moving.nii.gz" := FileVolume "subject"]> ∅)) [] [].

(** A second world with the same two input files, after other activity. *)
Definition w1 : World string string string string string :=
  mkWorld (<["notes.txt" := FileVolume "unrelated"]> inputs)
          [CLoad "earlier.nii.gz"] ["earlier output"].

End Demo.

(* ===================================================================== *)
(** ** Observations on a run *)
(* ===================================================================== *)

Section Observations.

Context {py : StrLower}.
Context {image tensor moments_t affine_t greedy_t : Type}.

Abbreviation File := (File image tensor moments_t affine_t greedy_t).
Abbreviation World := (World image tensor moments_t affine_t greedy_t).
Abbreviation FireANTs := (FireANTs image tensor moments_t affine_t greedy_t).

(** The paths a call writes to. *)
Definition write_paths_of (c : Call image tensor) : list string :=
  match c with
  | CMomentsSave ps | CAffineSave ps | CGreedySave ps _ => ps
  | CWriteImage p => [p]
  | _ => []
  end.

Definition write_paths (cs : list (Call image tensor)) : list string :=
  concat (map write_paths_of cs).

(** The calls logged since world [w]. *)
Definition new_calls (w w' : World) : list (Call image tensor) :=
  drop (length (calls w)) (calls w').

(** Calls on the [MomentsRegistration] object. *)
Definition is_moments_call (c : Call image tensor) : bool :=
  match c with
  | CMomentsNew _ | CMomentsOptimize | CMomentsGetAffineInit
  | CMomentsSave _ | CMomentsEvaluate => true
  | _ => false
  end.

Definition is_moments_optimize (c : Call image tensor) : bool :=
  match c with CMomentsOptimize => true | _ => false end.

(** The [scale] of every [MomentsRegistration] that was set up. *)
Definition moments_scales (cs : list (Call image tensor)) : list Q :=
  omap (fun c => match c with CMomentsNew cfg => Some (m_scale cfg) | _ => None end) cs.

(** The [init_rigid] of every [AffineRegistration] that was set up. *)
Definition affine_seeds (cs : list (Call image tensor)) : list (option tensor) :=
  omap (fun c => match c with CAffineNew cfg => Some (a_init_rigid cfg) | _ => None end) cs.

(** The configurations the registrations of a run were set up with. *)
Definition moments_configs (cs : list (Call image tensor)) : list MomentsConfig :=
  omap (fun c => match c with CMomentsNew cfg => Some cfg | _ => None end) cs.

Definition affine_configs (cs : list (Call image tensor)) : list AffineConfig :=
  omap (fun c => match c with CAffineNew cfg => Some cfg | _ => None end) cs.

Definition greedy_configs (cs : list (Call image tensor)) : list GreedyConfig :=
  omap (fun c => match c with CGreedyNew cfg => Some cfg | _ => None end) cs.

(** The paths [Image.load_file] was called on. *)
Definition load_paths (cs : list (Call image tensor)) : list string :=
  omap (fun c => match c with CLoad p => Some p | _ => None end) cs.

(** The lines printed since world [w]. *)
Definition new_stdout (w w' : World) : list string :=
  drop (length (stdout w)) (stdout w').

(** Two printed lines are the same but for the profile name, which each
    shows as it was typed. *)
Definition same_line_up_to_name (profile other line1 line2 : string) : Prop :=
  line1 = line2 \/
  exists before after : string,
    line1 = before +:+ profile +:+ after /\ line2 = before +:+ other +:+ after.

(** The output paths in the order the source writes them. *)
Definition write_sequence (out_prefix : string) (do_moments : bool) : list string :=
  (if do_moments
   then [moments_path out_prefix; moved_moments_path out_prefix] else [])
  ++ [affine_path out_prefix; moved_path out_prefix;
      forward_warp_path out_prefix; inverse_warp_path out_prefix].

(** The artifacts section 6 of the specification lists, in its order. *)
Definition expected_outputs (out_prefix : string) (do_moments : bool) : list string :=
  [out_prefix +:+ "Warped.nii.gz"; out_prefix +:+ "0GenericAffine.mat";
   out_prefix +:+ "Def.nii.gz"; out_prefix +:+ "InvDef.nii.gz"]
  ++ (if do_moments
      then [out_prefix +:+ "MomentsInit.mat"; out_prefix +:+ "MomentsWarped.nii.gz"]
      else []).

(** File [f] is what the orchestrator writes at output path [p]: a moments
    transform at [MomentsInit.mat], an affine transform at
    [0GenericAffine.mat], a forward warp at [Def.nii.gz], an inverse warp at
    [InvDef.nii.gz], an image at the other two. *)
Definition holds_output (out_prefix p : string) (f : File) : Prop :=
  (p = moments_path out_prefix /\ exists m, f = FileMomentsTransform m) \/
  (p = moved_moments_path out_prefix /\ exists b, f = FileImage b) \/
  (p = affine_path out_prefix /\ exists a, f = FileAffineTransform a) \/
  (p = moved_path out_prefix /\ exists b, f = FileImage b) \/
  (p = forward_warp_path out_prefix /\ exists g, f = FileWarp g false) \/
  (p = inverse_warp_path out_prefix /\ exists g, f = FileWarp g true).

(** Two file systems [m1'] and [m2'], reached from [m1] and [m2], treat path
    [p] alike: either neither changed it, or it is one of the paths [seq]
    and both hold the same file there. *)
Definition written_alike (seq : list string) (p : string)
    (m1 m2 m1' m2' : gmap string File) : Prop :=
  (m1' !! p = m1 !! p /\ m2' !! p = m2 !! p) \/
  (p ∈ seq /\ m1' !! p = m2' !! p).

(** C4 as the specification words it: every moments registration is set up
    at the coarsest pyramid level, the first of the profile's scales. *)
Definition moments_at_coarsest_level (profile : string)
    (cs : list (Call image tensor)) : Prop :=
  forall s : Q, s ∈ moments_scales cs ->
    exists coarsest : Z,
      head (scales (_get_profile_params profile)) = Some coarsest /\
      (s == inject_Z coarsest)%Q.

(** C1 as the specification words it: a run that raises leaves no output
    path of the run created or changed. *)
Definition all_or_nothing (out_prefix : string) (do_moments : bool)
    (r : outcome unit) (w w' : World) : Prop :=
  (exists e, r = Raises e) ->
  forall p : string, p ∈ expected_outputs out_prefix do_moments ->
    files w' !! p = files w !! p.

(** The two halves of what a run yields: whether it returned or raised, and
    the world it left. *)
Definition run_outcome (lib : FireANTs)
    (fixed_path moving_path out_prefix profile : string) (do_moments : bool)
    (w : World) : outcome unit :=
  fst (run_fireants_registration lib fixed_path moving_path out_prefix profile do_moments w).

Definition run_world (lib : FireANTs)
    (fixed_path moving_path out_prefix profile : string) (do_moments : bool)
    (w : World) : World :=
  snd (run_fireants_registration lib fixed_path moving_path out_prefix profile do_moments w).

End Observations.

(* ===================================================================== *)
(** ** Basic facts *)
(* ===================================================================== *)

Lemma append_inj_prefix (p a b : string) : p +:+ a = p +:+ b -> a = b.
Proof.
  induction p as [|c p IH]; simpl; intros H; [exact H|].
  injection H as H. auto.
Qed.

Lemma append_neq_prefix (p a b : string) : a <> b -> p +:+ a <> p +:+ b.
Proof. intros Hab H. apply Hab. eapply append_inj_prefix. exact H. Qed.

(** The six output paths of one run are pairwise different. *)
Lemma write_sequence_NoDup (out_prefix : string) (do_moments : bool) :
  NoDup (write_sequence out_prefix do_moments).
Proof.
  unfold write_sequence, moments_path, moved_moments_path, affine_path,
    moved_path, forward_warp_path, inverse_warp_path.
  destruct do_moments; simpl;
    repeat (apply NoDup_cons; split;
            [rewrite ?not_elem_of_cons; repeat split;
             try (apply append_neq_prefix; discriminate);
             apply not_elem_of_nil|]);
    apply NoDup_nil; exact I.
Qed.

(* ===================================================================== *)
(** ** The profile table *)
(* ===================================================================== *)

Example lower_mixed_case : PyStr.ascii_lower "BaLaNcEd" = "balanced".
Proof. reflexivity. Qed.

(** On an ASCII name the lookup is decided by its ASCII lowercasing. *)
Lemma profile_params_ascii {py : StrLower} (profile : string) :
  PyStr.is_ascii profile = true ->
  _get_profile_params profile
  = let name := PyStr.ascii_lower profile in
    if String.eqb name "test" then
      mkParams [4; 2; 1] [8; 2; 0] (3 # 1000) (1 # 2)
    else if String.eqb name "quick" then
      mkParams [4; 2; 1] [100; 50; 0] (3 # 1000) (1 # 2)
    else if String.eqb name "balanced" then
      mkParams [4; 2; 1] [50; 50; 25] (3 # 1000) (1 # 2)
    else
      mkParams [4; 2; 1] [200; 100; 50] (3 # 1000) (1 # 2).
Proof.
  intros Hascii. unfold _get_profile_params.
  rewrite (str_lower_ascii profile Hascii). reflexivity.
Qed.

Example params_test_upper {py : StrLower} :
  iterations (_get_profile_params "TEST") = [8; 2; 0].
Proof. rewrite profile_params_ascii by reflexivity. reflexivity. Qed.

Example deform_default {py : StrLower} :
  deform_iterations_of (iterations (_get_profile_params "default"))
  = [200; 100; 25].
Proof. rewrite profile_params_ascii by reflexivity. reflexivity. Qed.

Lemma lower_ascii_idempotent (c : ascii) :
  PyStr.lower_ascii (PyStr.lower_ascii c) = PyStr.lower_ascii c.
Proof. destruct c as [[] [] [] [] [] [] [] []]; reflexivity. Qed.

Lemma lower_ascii_stays_ascii (c : ascii) :
  (nat_of_ascii c <? 128)%nat = true ->
  (nat_of_ascii (PyStr.lower_ascii c) <? 128)%nat = true.
Proof.
  destruct c as [[] [] [] [] [] [] [] []]; vm_compute; intros H;
    first [reflexivity | discriminate H].
Qed.

Lemma ascii_lower_idempotent (s : string) :
  PyStr.ascii_lower (PyStr.ascii_lower s) = PyStr.ascii_lower s.
Proof.
  induction s as [|c s IH]; cbn [PyStr.ascii_lower]; [reflexivity|].
  rewrite lower_ascii_idempotent, IH. reflexivity.
Qed.

Lemma ascii_lower_stays_ascii (s : string) :
  PyStr.is_ascii s = true -> PyStr.is_ascii (PyStr.ascii_lower s) = true.
Proof.
  induction s as [|c s IH]; cbn [PyStr.ascii_lower PyStr.is_ascii]; [reflexivity|].
  intros H. apply andb_true_iff in H as [Hc Hs].
  apply andb_true_iff. split; [apply lower_ascii_stays_ascii, Hc | apply IH, Hs].
Qed.

Example deform_short_list : deform_iterations_of [400; 300] = [400; 300].
Proof. reflexivity. Qed.

(** The cap of lines 163-165 on any list of budgets: the length and every
    level but the last are kept, and the last is 25 when there are at least
    three levels and it was above 25. *)
Lemma deform_iterations_of_spec (its : list Z) :
  length (deform_iterations_of its) = length its /\
  take (length its - 1) (deform_iterations_of its) = take (length its - 1) its /\
  last (deform_iterations_of its)
  = (fun x => if (3 <=? length its)%nat && (25 <? x) then 25 else x) <$> last its.
Proof.
  assert (Hpred : pred (length its) = (length its - 1)%nat) by lia.
  unfold deform_iterations_of.
  destruct (3 <=? length its)%nat eqn:Hn; cbn [andb].
  - apply Nat.leb_le in Hn.
    destruct (its !! (length its - 1)%nat) as [x|] eqn:Hx.
    + destruct (25 <? x) eqn:Hc.
      * rewrite !last_lookup, length_insert, Hpred, Hx.
        cbn [fmap option_fmap option_map]. rewrite Hc.
        split; [reflexivity|]. split.
        -- rewrite take_insert. case_decide; [lia | reflexivity].
        -- apply list_lookup_insert_eq. lia.
      * rewrite !last_lookup, Hpred, Hx.
        cbn [fmap option_fmap option_map]. rewrite Hc. auto.
    + rewrite !last_lookup, Hpred, Hx. auto.
  - destruct (last its); auto.
Qed.

Lemma profile_scales {py : StrLower} (profile : string) :
  scales (_get_profile_params profile) = [4; 2; 1].
Proof.
  unfold _get_profile_params.
  repeat match goal with
         | |- context [String.eqb ?a ?b] => destruct (String.eqb a b)
         end; reflexivity.
Qed.


(** What the orchestrator passes on for smoothing: for every profile the
    greedy registration is set up with [smooth_grad_sigma=0.5], one strength
    for all levels. What the library smooths with it, and when, is the
    library's business. *)
Lemma greedy_smooth_grad_sigma_fixed
    {py : StrLower} {image tensor : Type} (profile : string) (fixed_batch moving_batch : list image)
    (init_affine : tensor) :
  g_smooth_grad_sigma
    (greedy_config (_get_profile_params profile) fixed_batch moving_batch init_affine)
  = 1 # 2.
Proof. reflexivity. Qed.

(** C9. Whatever the name, the scales and the iteration budgets both have
    three entries, the scales are [(4, 2, 1)]: strictly decreasing and
    ending in 1, and the two learning rates are positive. *)
Theorem profile_params_well_formed {py : StrLower} (profile : string) :
  let p := _get_profile_params profile in
  length (scales p) = 3%nat /\
  length (iterations p) = 3%nat /\
  length (scales p) = length (iterations p) /\
  strictly_decreasing (scales p) = true /\
  last (scales p) = Some 1 /\
  (0 < affine_lr p)%Q /\
  (0 < deform_lr p)%Q.
Proof.
  unfold _get_profile_params.
  repeat match goal with
         | |- context [String.eqb ?a ?b] => destruct (String.eqb a b)
         end; repeat split; reflexivity.
Qed.

(** C10. [_get_profile_params] is a total function of the name, for every
    string and whatever [str.lower] does outside ASCII. The result depends
    on the name only through its lowercased form; a name whose lowercased
    form is "test", "quick" or "balanced" gets that row of the table, and
    every other name ("default" and every unknown name) gets the default
    parameters. On an ASCII name the lowercased form is the ASCII
    lowercasing, so lowercasing the name before the call changes nothing,
    and "TEST", "Quick" and "BALANCED" get the rows of "test", "quick" and
    "balanced". *)
Theorem profile_lookup_total_case_insensitive {py : StrLower} (profile : string) :
  let default_params := mkParams [4; 2; 1] [200; 100; 50] (3 # 1000) (1 # 2) in
  let test_params := mkParams [4; 2; 1] [8; 2; 0] (3 # 1000) (1 # 2) in
  let quick_params := mkParams [4; 2; 1] [100; 50; 0] (3 # 1000) (1 # 2) in
  let balanced_params := mkParams [4; 2; 1] [50; 50; 25] (3 # 1000) (1 # 2) in
  (forall other : string, str_lower other = str_lower profile ->
     _get_profile_params other = _get_profile_params profile) /\
  (str_lower profile = "test" -> _get_profile_params profile = test_params) /\
  (str_lower profile = "quick" -> _get_profile_params profile = quick_params) /\
  (str_lower profile = "balanced" -> _get_profile_params profile = balanced_params) /\
  (str_lower profile <> "test" -> str_lower profile <> "quick" ->
   str_lower profile <> "balanced" ->
     _get_profile_params profile = default_params) /\
  (PyStr.is_ascii profile = true ->
     str_lower profile = PyStr.ascii_lower profile /\
     _get_profile_params (PyStr.ascii_lower profile) = _get_profile_params profile) /\
  _get_profile_params "test" = test_params /\
  _get_profile_params "TEST" = test_params /\
  _get_profile_params "quick" = quick_params /\
  _get_profile_params "Quick" = quick_params /\
  _get_profile_params "balanced" = balanced_params /\
  _get_profile_params "BALANCED" = balanced_params /\
  _get_profile_params "default" = default_params /\
  _get_profile_params "DEFAULT" = default_params /\
  _get_profile_params "fast" = default_params /\
  _get_profile_params "tests" = default_params /\
  _get_profile_params "" = default_params.
Proof.
  cbv zeta.
  split; [unfold _get_profile_params; intros other ->; reflexivity|].
  split; [unfold _get_profile_params; intros ->; reflexivity|].
  split; [unfold _get_profile_params; intros ->; reflexivity|].
  split; [unfold _get_profile_params; intros ->; reflexivity|].
  split.
  { unfold _get_profile_params. intros H1 H2 H3.
    apply String.eqb_neq in H1, H2, H3. rewrite H1, H2, H3. reflexivity. }
  split.
  { intros Hascii. split; [exact (str_lower_ascii profile Hascii)|].
    rewrite (profile_params_ascii profile Hascii).
    rewrite (profile_params_ascii _ (ascii_lower_stays_ascii profile Hascii)).
    rewrite ascii_lower_idempotent. reflexivity. }
  repeat split; rewrite profile_params_ascii by reflexivity; reflexivity.
Qed.

(** Symbolic execution of a run: unfold the orchestrator up to the next
    library call, then split on whether that call returns or raises. *)
Ltac run_unfold :=
  cbv beta iota zeta delta
      [run_fireants_registration
       moments_stage affine_stage deformable_stage export_stage
       load_file write_image call write_each write_file
       bind ret log lift print];
  cbn [files calls stdout].

(** The call the execution waits on: the innermost scrutinee at the head of
    the term. *)
Ltac head_stuck t :=
  lazymatch t with
  | match ?s with (_, _) => _ end => head_stuck s
  | match ?s with Returns _ => _ | Raises _ => _ end => head_stuck s
  | if ?b then _ else _ => head_stuck b
  | _ => t
  end.

Ltac run_split :=
  lazymatch goal with
  | |- ?t = _ -> _ =>
      let s := head_stuck t in
      lazymatch s with
      | (_, _) =>
          match goal with
          | |- context [match partial_write ?l ?p ?f with Some _ => _ | None => _ end] =>
              destruct (partial_write l p f) eqn:?
          end
      | _ => destruct s eqn:?
      end
  end.

(** Names the outcome [r] and the final world [w'] of the run in the goal,
    executes the run, and leaves one goal per way it can end. *)
Ltac run_exec :=
  unfold run_outcome, run_world;
  match goal with
  | |- context [run_fireants_registration ?l ?f ?m ?o ?p ?d ?w] =>
      let r := fresh "r" in
      let w' := fresh "w'" in
      let E := fresh "E" in
      destruct (run_fireants_registration l f m o p d w) as [r w'] eqn:E;
      cbn [fst snd];
      let P := fresh "P" in
      pattern r, w';
      match goal with |- ?G r w' => set (P := G) end;
      revert E;
      run_unfold; repeat (run_split; run_unfold);
      intros [= <- <-]; subst P; cbv beta; cbn [files calls stdout]
  end.

(** Brings [new_calls w w'] to the explicit list of the calls made. *)
Ltac norm_calls :=
  unfold new_calls; cbn [calls]; rewrite <- ?app_assoc; cbn [app];
  rewrite !drop_app_length.

(** A path is none of finitely many paths with the same prefix and another
    suffix. *)
Ltac paths_differ :=
  rewrite ?not_elem_of_cons; repeat split;
  try (apply append_neq_prefix; discriminate); apply not_elem_of_nil.

(** Reads a path back from a file system built by writes to paths with the
    same prefix. *)
Ltac lookup_written :=
  repeat first
    [ rewrite lookup_insert_eq
    | rewrite lookup_insert_ne by (apply append_neq_prefix; discriminate) ];
  reflexivity.

(** Which call sits at position [i] of an explicit list of calls. *)
Ltac scan_calls i :=
  do 20 (destruct i as [|i];
         [try discriminate; try (eexists; split; reflexivity)|]);
  discriminate.

(** Unfolds the six output paths to [out_prefix] followed by a suffix. *)
Ltac unfold_paths :=
  unfold moments_path, moved_moments_path, affine_path, moved_path,
    forward_warp_path, inverse_warp_path in *.

(** The kind of file the source writes at one of the six output paths. *)
Ltac output_kind :=
  unfold holds_output; unfold_paths;
  first
    [ solve [left; split; [reflexivity | eexists; reflexivity]]
    | solve [right; left; split; [reflexivity | eexists; reflexivity]]
    | solve [right; right; left; split; [reflexivity | eexists; reflexivity]]
    | solve [right; right; right; left; split; [reflexivity | eexists; reflexivity]]
    | solve [right; right; right; right; left;
             split; [reflexivity | eexists; reflexivity]]
    | solve [right; right; right; right; right;
             split; [reflexivity | eexists; reflexivity]] ].

(** Membership in the short lists of configurations a run leaves. *)
Ltac invert_member :=
  repeat match goal with
         | H : _ ∈ [] |- _ => apply elem_of_nil in H; destruct H
         | H : _ ∈ [_] |- _ => apply list_elem_of_singleton in H; subst
         end.

(** One conjunct about a completed run: an equation of the library that
    the execution went through, a configuration that was logged, or a file
    read back. *)
Ltac chain_step :=
  lazymatch goal with
  | |- _ !! _ = _ => lookup_written
  | |- _ ∈ _ =>
      cbn [affine_configs greedy_configs moments_configs omap list_omap];
      apply list_elem_of_here
  | |- Returns _ = Returns _ => reflexivity
  | |- _ = _ => first [eassumption | reflexivity]
  end.

Section RunFacts.

Context {py : StrLower}.
Context {image tensor moments_t affine_t greedy_t : Type}.
Variable lib : FireANTs image tensor moments_t affine_t greedy_t.

Abbreviation World := (World image tensor moments_t affine_t greedy_t).

(** *** Output files of a run, failed or not *)

(** C1, as the code has it. Outputs go straight to their final paths and
    nothing is undone when a later step raises. Whatever the outcome of the
    run: the writes it attempted are, in order, an initial segment of the
    write sequence (moments transform, moments-warped image, affine
    transform, warped image, forward warp, inverse warp); every attempted
    write but the last one succeeded; every write that succeeded has left,
    at its path, a file of the kind written there; and a path that was not
    attempted is untouched. Only the path of a write that failed may hold
    anything else. When the run returns, the whole sequence was written. *)
Theorem failed_run_keeps_earlier_outputs
    (fixed_path moving_path out_prefix profile : string)
    (do_moments : bool) (w : World) :
  let r := run_outcome lib fixed_path moving_path out_prefix profile do_moments w in
  let w' := run_world lib fixed_path moving_path out_prefix profile do_moments w in
  let attempted := write_paths (new_calls w w') in
  let seq := write_sequence out_prefix do_moments in
  attempted `prefix_of` seq /\
  Forall (fun p => writable lib p = true)
    (take (length attempted - 1) attempted) /\
  (forall p : string, p ∈ attempted -> writable lib p = true ->
     exists f, files w' !! p = Some f /\ holds_output out_prefix p f) /\
  (forall p : string, p ∉ attempted -> files w' !! p = files w !! p) /\
  (r = Returns tt ->
   attempted = seq /\ Forall (fun p => writable lib p = true) seq).
Proof.
  destruct do_moments; run_exec; norm_calls; unfold write_sequence;
    cbn [write_paths map concat write_paths_of app length Nat.sub take];
    (split; [eexists; reflexivity|]);
    (split; [repeat constructor; assumption|]);
    (split;
     [intros p Hp Hw;
      repeat (apply elem_of_cons in Hp as [-> | Hp];
              [first [ congruence
                     | eexists; split; [unfold_paths; lookup_written | output_kind] ]|]);
      apply elem_of_nil in Hp; destruct Hp|]);
    (split;
     [intros p Hp; rewrite ?not_elem_of_cons in Hp;
      repeat match goal with H : _ /\ _ |- _ => destruct H end;
      rewrite ?lookup_insert_ne by congruence; reflexivity|]);
    first [discriminate
          | intros _; split; [reflexivity | repeat constructor; assumption]].
Qed.

(** *** Skipping the moments stage *)

(** C2. With [do_moments = False] no call is made on a moments registration,
    the one [AffineRegistration] that is set up gets [init_rigid = None]
    (the library's "no initial transform", from which it starts at the
    identity), and neither [<out_prefix>MomentsInit.mat] nor
    [<out_prefix>MomentsWarped.nii.gz] is written or changed. This holds
    for every library behaviour and every starting world. *)
Theorem no_moments_skips_stage
    (fixed_path moving_path out_prefix profile : string) (w : World) :
  let r := run_outcome lib fixed_path moving_path out_prefix profile false w in
  let w' := run_world lib fixed_path moving_path out_prefix profile false w in
  let cs := new_calls w w' in
  Forall (fun c => is_moments_call c = false) cs /\
  Forall (fun seed => seed = None) (affine_seeds cs) /\
  (r = Returns tt -> affine_seeds cs = [None]) /\
  (moments_path out_prefix ∉ write_paths cs) /\
  (moved_moments_path out_prefix ∉ write_paths cs) /\
  files w' !! moments_path out_prefix = files w !! moments_path out_prefix /\
  files w' !! moved_moments_path out_prefix = files w !! moved_moments_path out_prefix.
Proof.
  run_exec; norm_calls;
    (split; [repeat constructor|]);
    (split; [repeat constructor|]);
    (split; [try discriminate; reflexivity|]);
    cbn [write_paths map concat write_paths_of app];
    unfold moments_path, moved_moments_path, affine_path, moved_path,
      forward_warp_path, inverse_warp_path;
    (split; [paths_differ|]); (split; [paths_differ|]);
    rewrite ?lookup_insert_ne by (apply append_neq_prefix; discriminate);
    split; reflexivity.
Qed.

(** *** The scale of the moments stage *)

(** C4, as the code has it. A moments registration is set up at most once
    per run, and always with [scale=1.0]: full resolution, which is the
    last (finest) scale factor of every profile and not the first
    (coarsest) one. The scale is a constant of the orchestrator, it does
    not come from the profile's list of levels; [optimize] is called on it
    at most once, and exactly once in a run that returns with moments
    enabled. *)
Theorem moments_runs_once_at_full_resolution
    (fixed_path moving_path out_prefix profile : string)
    (do_moments : bool) (w : World) :
  let r := run_outcome lib fixed_path moving_path out_prefix profile do_moments w in
  let w' := run_world lib fixed_path moving_path out_prefix profile do_moments w in
  let cs := new_calls w w' in
  let p := _get_profile_params profile in
  (moments_scales cs = [] \/ moments_scales cs = [1%Q]) /\
  inject_Z <$> last (scales p) = Some 1%Q /\
  inject_Z <$> head (scales p) = Some (4 # 1) /\
  (length (filter (fun c => is_moments_optimize c = true) cs) <= 1)%nat /\
  (r = Returns tt ->
   moments_scales cs = (if do_moments then [1%Q] else []) /\
   length (filter (fun c => is_moments_optimize c = true) cs)
   = if do_moments then 1%nat else 0%nat).
Proof.
  pose proof (profile_scales profile) as Hp.
  destruct do_moments; run_exec; norm_calls; rewrite Hp;
    (split; [first [left; reflexivity | right; reflexivity]|]);
    (split; [reflexivity|]); (split; [reflexivity|]);
    (split; [vm_compute; lia|]);
    try discriminate; intros _; split; reflexivity.
Qed.

(** *** The artifacts of a completed run *)

(** C5. A run that returns has written exactly the artifacts the
    specification lists, each once, and every other path is as it was. The
    affine transform file holds the affine registration that was set up (as
    logged) and then optimised; the forward and the inverse warp hold the
    greedy registration that was set up and then optimised; the warped image
    is the moving volume resampled by that optimised registration, on the
    grid of the fixed volume; and with moments enabled the moments transform
    and the moments-warped image come from the optimised moments
    registration. *)
Theorem completed_run_writes_expected_outputs
    (fixed_path moving_path out_prefix profile : string)
    (do_moments : bool) (w : World) :
  let r := run_outcome lib fixed_path moving_path out_prefix profile do_moments w in
  let w' := run_world lib fixed_path moving_path out_prefix profile do_moments w in
  let cs := new_calls w w' in
  r = Returns tt ->
  write_paths cs ≡ₚ expected_outputs out_prefix do_moments /\
  (forall p : string, p ∉ expected_outputs out_prefix do_moments ->
     files w' !! p = files w !! p) /\
  exists (fixed_img moving_img : image)
         (acfg : AffineConfig) (a0 affine : affine_t)
         (gcfg : GreedyConfig) (g0 reg : greedy_t) (moved : tensor),
    Image_load_file lib (files w !! fixed_path) = Returns fixed_img /\
    Image_load_file lib (files w !! moving_path) = Returns moving_img /\
    acfg ∈ affine_configs cs /\
    AffineRegistration lib acfg = Returns a0 /\
    affine_optimize lib a0 = Returns affine /\
    gcfg ∈ greedy_configs cs /\
    GreedyRegistration lib gcfg = Returns g0 /\
    greedy_optimize lib g0 = Returns reg /\
    greedy_evaluate lib reg [fixed_img] [moving_img] = Returns moved /\
    files w' !! (out_prefix +:+ "Warped.nii.gz")
      = Some (FileImage (mkFake moved [fixed_img])) /\
    files w' !! (out_prefix +:+ "0GenericAffine.mat")
      = Some (FileAffineTransform affine) /\
    files w' !! (out_prefix +:+ "Def.nii.gz") = Some (FileWarp reg false) /\
    files w' !! (out_prefix +:+ "InvDef.nii.gz") = Some (FileWarp reg true) /\
    if do_moments then
      exists (mcfg : MomentsConfig) (m0 moments : moments_t) (moved_moments : tensor),
        mcfg ∈ moments_configs cs /\
        MomentsRegistration lib mcfg = Returns m0 /\
        moments_optimize lib m0 = Returns moments /\
        moments_evaluate lib moments [fixed_img] [moving_img] = Returns moved_moments /\
        files w' !! (out_prefix +:+ "MomentsInit.mat")
          = Some (FileMomentsTransform moments) /\
        files w' !! (out_prefix +:+ "MomentsWarped.nii.gz")
          = Some (FileImage (mkFake moved_moments [fixed_img]))
    else
      files w' !! (out_prefix +:+ "MomentsInit.mat")
        = files w !! (out_prefix +:+ "MomentsInit.mat") /\
      files w' !! (out_prefix +:+ "MomentsWarped.nii.gz")
        = files w !! (out_prefix +:+ "MomentsWarped.nii.gz").
Proof.
  destruct do_moments; run_exec; try discriminate; intros _; norm_calls;
    cbn [write_paths map concat write_paths_of app];
    unfold expected_outputs; unfold_paths; cbn [app].
  all: split; [solve_Permutation|].
  all: split;
    [intros p Hp; rewrite ?not_elem_of_cons in Hp;
     repeat match goal with H : _ /\ _ |- _ => destruct H end;
     rewrite ?lookup_insert_ne by congruence; reflexivity|].
  all: do 2 eexists;
    match goal with
    | Ha : AffineRegistration _ ?c = _, Hg : GreedyRegistration _ ?g = _ |- _ =>
        exists c; do 2 eexists; exists g; do 3 eexists
    end;
    do 13 (split; [chain_step|]).
  - match goal with
    | Hm : MomentsRegistration _ ?c = _ |- _ => exists c; do 3 eexists
    end.
    do 5 (split; [chain_step|]). chain_step.
  - split; lookup_written.
Qed.

(** *** Order of the stages *)

(** C6. A run that returns has made its library calls in the order moments
    (when enabled), affine, deformable, export. The affine registration
    that was set up has, in its [init_rigid], the detached result of
    [get_affine_init] of the optimised moments registration ([None] without
    moments); the greedy registration that was set up has, in its
    [init_affine], the detached matrix of the optimised affine registration;
    and the export evaluates the optimised greedy registration. In every
    run, returned or raised, the first call of a stage comes directly after
    the last call of the stage before it. *)
Theorem stages_run_in_order_and_seed_the_next
    (fixed_path moving_path out_prefix profile : string)
    (do_moments : bool) (w : World) :
  let r := run_outcome lib fixed_path moving_path out_prefix profile do_moments w in
  let w' := run_world lib fixed_path moving_path out_prefix profile do_moments w in
  let cs := new_calls w w' in
  (r = Returns tt ->
   exists (fixed_img moving_img : image)
          (acfg : AffineConfig) (gcfg : GreedyConfig),
     (if do_moments then
        exists (m0 m : moments_t) (t : tensor),
          MomentsRegistration lib (moments_config [fixed_img] [moving_img]) = Returns m0 /\
          moments_optimize lib m0 = Returns m /\
          moments_get_affine_init lib m = Returns t /\
          a_init_rigid acfg = Some (detach lib t)
      else a_init_rigid acfg = None) /\
     (exists (a0 a : affine_t) (t : tensor),
        AffineRegistration lib acfg = Returns a0 /\
        affine_optimize lib a0 = Returns a /\
        affine_get_affine_matrix lib a = Returns t /\
        g_init_affine gcfg = detach lib t) /\
     (exists (g0 reg : greedy_t) (moved : tensor),
        GreedyRegistration lib gcfg = Returns g0 /\
        greedy_optimize lib g0 = Returns reg /\
        greedy_evaluate lib reg [fixed_img] [moving_img] = Returns moved) /\
     cs = ([CLoad fixed_path; CLoad moving_path]
          ++ (if do_moments then
                [CMomentsNew (moments_config [fixed_img] [moving_img]);
                 CMomentsOptimize; CMomentsGetAffineInit;
                 CMomentsSave [moments_path out_prefix];
                 CMomentsEvaluate; CWriteImage (moved_moments_path out_prefix)]
              else [])
          ++ [CAffineNew acfg; CAffineOptimize; CAffineGetMatrix;
              CAffineSave [affine_path out_prefix]]
          ++ [CGreedyNew gcfg; CGreedyOptimize]
          ++ [CGreedyEvaluate; CWriteImage (moved_path out_prefix);
              CGreedySave [forward_warp_path out_prefix] false;
              CGreedySave [inverse_warp_path out_prefix] true])%list) /\
  (forall (i : nat) (cfg : AffineConfig), cs !! i = Some (CAffineNew cfg) ->
     exists j : nat, i = S j /\
       cs !! j = Some (if do_moments
                       then CWriteImage (moved_moments_path out_prefix)
                       else CLoad moving_path)) /\
  (forall (i : nat) (cfg : GreedyConfig), cs !! i = Some (CGreedyNew cfg) ->
     exists j : nat, i = S j /\ cs !! j = Some (CAffineSave [affine_path out_prefix])) /\
  (forall i : nat, cs !! i = Some CGreedyEvaluate ->
     exists j : nat, i = S j /\ cs !! j = Some CGreedyOptimize).
Proof.
  destruct do_moments; run_exec; norm_calls.
  all: split;
    [first
       [ discriminate
       | intros _; do 2 eexists;
         match goal with
         | Ha : AffineRegistration _ ?c = _, Hg : GreedyRegistration _ ?g = _ |- _ =>
             exists c, g
         end;
         split;
         [first [reflexivity
                | do 3 eexists; do 3 (split; [eassumption|]); reflexivity]|];
         split; [do 3 eexists; do 3 (split; [eassumption|]); reflexivity|];
         split; [do 3 eexists; do 2 (split; [eassumption|]); eassumption
                | reflexivity] ]|].
  all: split; [intros i cfg Hi; scan_calls i|].
  all: split; [intros i cfg Hi; scan_calls i|].
  all: intros i Hi; scan_calls i.
Qed.

(** *** Two runs on the same inputs *)

(** C8. The library being a function of its arguments (a deterministic
    optimiser), two runs with the same profile, flag and output prefix, in
    any two worlds that hold the same fixed and the same moving file, end
    the same way and make the same calls with the same arguments; when they
    return, the affine transform, the forward warp, the inverse warp and
    the warped image they leave are equal. Nothing else in the world (other
    files, earlier calls, earlier output) reaches the result. *)
Theorem runs_on_equal_inputs_agree
    (fixed_path moving_path out_prefix profile : string)
    (do_moments : bool) (w1 w2 : World) :
  files w1 !! fixed_path = files w2 !! fixed_path ->
  files w1 !! moving_path = files w2 !! moving_path ->
  let r1 := run_outcome lib fixed_path moving_path out_prefix profile do_moments w1 in
  let r2 := run_outcome lib fixed_path moving_path out_prefix profile do_moments w2 in
  let w1' := run_world lib fixed_path moving_path out_prefix profile do_moments w1 in
  let w2' := run_world lib fixed_path moving_path out_prefix profile do_moments w2 in
  r1 = r2 /\
  new_calls w1 w1' = new_calls w2 w2' /\
  (r1 = Returns tt ->
   files w1' !! affine_path out_prefix = files w2' !! affine_path out_prefix /\
   files w1' !! forward_warp_path out_prefix
     = files w2' !! forward_warp_path out_prefix /\
   files w1' !! inverse_warp_path out_prefix
     = files w2' !! inverse_warp_path out_prefix /\
   files w1' !! moved_path out_prefix = files w2' !! moved_path out_prefix).
Proof.
  intros Hfixed Hmoving.
  unfold run_outcome, run_world.
  destruct (run_fireants_registration lib fixed_path moving_path out_prefix
              profile do_moments w1) as [r1 w1'] eqn:E1.
  destruct (run_fireants_registration lib fixed_path moving_path out_prefix
              profile do_moments w2) as [r2 w2'] eqn:E2.
  cbn [fst snd]. revert E1 E2.
  destruct do_moments; run_unfold; rewrite Hfixed, Hmoving;
    repeat (run_split; run_unfold);
    intros [= <- <-] [= <- <-]; cbn [files]; norm_calls;
    (split; [reflexivity|]); (split; [reflexivity|]);
    first
      [ discriminate
      | intros _;
        unfold moments_path, moved_moments_path, affine_path, moved_path,
          forward_warp_path, inverse_warp_path;
        repeat split; lookup_written ].
Qed.

End RunFacts.

(* ===================================================================== *)
(** ** More on the budgets and the profile table *)
(* ===================================================================== *)

(** The cap of lines 163-165 never raises a budget, on any list of
    budgets, and capping twice is capping once. *)
Theorem deform_iterations_never_increase (its : list Z) :
  Forall2 Z.le (deform_iterations_of its) its /\
  deform_iterations_of (deform_iterations_of its) = deform_iterations_of its.
Proof.
  assert (Hrefl : Forall2 Z.le its its).
  { apply Forall_Forall2_diag, Forall_forall. intros; lia. }
  unfold deform_iterations_of at 1 3 4.
  destruct (3 <=? length its)%nat eqn:Hn.
  - apply Nat.leb_le in Hn.
    destruct (its !! (length its - 1)%nat) as [x|] eqn:Hx.
    + destruct (25 <? x) eqn:Hc.
      * apply Z.ltb_lt in Hc. split.
        -- assert (Hins : Forall2 Z.le (<[(length its - 1)%nat := 25]> its)
                                      (<[(length its - 1)%nat := x]> its))
             by (apply Forall2_insert; [exact Hrefl | lia]).
           rewrite (list_insert_id its (length its - 1)%nat x Hx) in Hins.
           exact Hins.
        -- unfold deform_iterations_of. rewrite length_insert.
           apply Nat.leb_le in Hn. rewrite Hn.
           rewrite list_lookup_insert_eq by (apply Nat.leb_le in Hn; lia).
           reflexivity.
      * split; [exact Hrefl|].
        unfold deform_iterations_of. apply Nat.leb_le in Hn.
        rewrite Hn, Hx, Hc. reflexivity.
    + split; [exact Hrefl|].
      unfold deform_iterations_of. apply Nat.leb_le in Hn.
      rewrite Hn, Hx. reflexivity.
  - split; [exact Hrefl|].
    unfold deform_iterations_of. rewrite Hn. reflexivity.
Qed.

(** With three levels or more, the deformable budget of the finest level is
    at most 25 whatever the budgets were. *)
Theorem deform_iterations_finest_bounded (its : list Z) (x : Z) :
  (3 <= length its)%nat ->
  last (deform_iterations_of its) = Some x ->
  x <= 25.
Proof.
  intros Hn Hlast.
  destruct (deform_iterations_of_spec its) as (_ & _ & Hspec).
  rewrite Hspec in Hlast.
  destruct (last its) as [y|]; [|discriminate].
  cbn [fmap option_fmap option_map] in Hlast. revert Hlast.
  destruct ((3 <=? length its)%nat && (25 <? y)) eqn:Hc; intros [= <-]; [lia|].
  apply andb_false_iff in Hc as [Hc|Hc].
  - apply Nat.leb_gt in Hc. lia.
  - apply Z.ltb_ge in Hc. lia.
Qed.

Lemma deform_iterations_finest_bounded_witness :
  (3 <= length [400; 300; 200; 100])%nat /\
  last (deform_iterations_of [400; 300; 200; 100]) = Some 25 /\
  25 <= 25.
Proof.
  split; [cbn; lia|]. split; [reflexivity|].
  apply (deform_iterations_finest_bounded [400; 300; 200; 100] 25);
    [cbn; lia | reflexivity].
Defined.

(** With fewer than three levels nothing is capped: a two-level list keeps
    a finest budget above 25. *)
Theorem deform_iterations_short_list_kept (its : list Z) :
  (length its < 3)%nat -> deform_iterations_of its = its.
Proof.
  intros Hn. unfold deform_iterations_of.
  destruct (3 <=? length its)%nat eqn:Hle; [|reflexivity].
  apply Nat.leb_le in Hle. lia.
Qed.

Lemma deform_iterations_short_list_kept_witness :
  deform_iterations_of [400; 300] = [400; 300].
Proof. apply deform_iterations_short_list_kept. cbn. lia. Defined.

(** Any two profile names give the same scales and the same two learning
    rates: profiles differ in their iteration budgets only. The budgets of
    every profile are non-negative and never grow from a coarser level to a
    finer one. *)
Theorem profiles_differ_in_budgets_only {py : StrLower} (profile other : string) :
  let p := _get_profile_params profile in
  let q := _get_profile_params other in
  scales p = scales q /\
  affine_lr p = affine_lr q /\
  deform_lr p = deform_lr q /\
  Forall (fun n => 0 <= n) (iterations p) /\
  Sorted Z.ge (iterations p).
Proof.
  unfold _get_profile_params.
  repeat match goal with
         | |- context [String.eqb ?a ?b] => destruct (String.eqb a b)
         end;
    cbn [scales affine_lr deform_lr iterations];
    (split; [reflexivity|]); (split; [reflexivity|]); (split; [reflexivity|]);
    (split; [repeat constructor; lia | repeat constructor; lia]).
Qed.

(* ===================================================================== *)
(** ** More on runs *)
(* ===================================================================== *)

Section RunExtras.

Context {py : StrLower}.
Context {image tensor moments_t affine_t greedy_t : Type}.
Variable lib : FireANTs image tensor moments_t affine_t greedy_t.

Abbreviation World' := (World image tensor moments_t affine_t greedy_t).

(** *** A failed load *)

(** When the fixed image cannot be loaded the run raises the loader's
    exception after that one call: the moving image is not loaded, nothing
    is printed and no file is touched. When the fixed image loads and the
    moving one does not, the run stops after the two loads, again with the
    file system and the output as they were. *)
Theorem failed_load_changes_nothing
    (fixed_path moving_path out_prefix profile : string)
    (do_moments : bool) (w : World') (e : string) :
  let r := run_outcome lib fixed_path moving_path out_prefix profile do_moments w in
  let w' := run_world lib fixed_path moving_path out_prefix profile do_moments w in
  (Image_load_file lib (files w !! fixed_path) = Raises e ->
   r = Raises e /\ files w' = files w /\ stdout w' = stdout w /\
   new_calls w w' = [CLoad fixed_path]) /\
  (forall img : image,
     Image_load_file lib (files w !! fixed_path) = Returns img ->
     Image_load_file lib (files w !! moving_path) = Raises e ->
     r = Raises e /\ files w' = files w /\ stdout w' = stdout w /\
     new_calls w w' = [CLoad fixed_path; CLoad moving_path]).
Proof.
  unfold run_outcome, run_world. split.
  - intros Hf. run_unfold. rewrite Hf. cbn [fst snd files stdout].
    norm_calls. auto.
  - intros img Hf Hm. run_unfold. rewrite Hf, Hm. cbn [fst snd files stdout].
    norm_calls. auto.
Qed.

(** *** One pair of images, one pyramid *)

(** In every run the registrations that get set up work on the same two
    one-image batches, the images loaded from the fixed and the moving
    path; the greedy registration has the scales, kernel size and optimiser
    of the affine one, and its budgets are the affine budgets after the
    cap. *)
Theorem stages_share_images_and_pyramid
    (fixed_path moving_path out_prefix profile : string)
    (do_moments : bool) (w : World') :
  let w' := run_world lib fixed_path moving_path out_prefix profile do_moments w in
  let cs := new_calls w w' in
  (forall a : AffineConfig, a ∈ affine_configs cs ->
     exists fixed_img moving_img : image,
       Image_load_file lib (files w !! fixed_path) = Returns fixed_img /\
       Image_load_file lib (files w !! moving_path) = Returns moving_img /\
       a_fixed_images a = [fixed_img] /\ a_moving_images a = [moving_img]) /\
  (forall (a : AffineConfig) (g : GreedyConfig),
     a ∈ affine_configs cs -> g ∈ greedy_configs cs ->
     g_fixed_images g = a_fixed_images a /\
     g_moving_images g = a_moving_images a /\
     g_scales g = a_scales a /\
     g_iterations g = deform_iterations_of (a_iterations a) /\
     g_cc_kernel_size g = a_cc_kernel_size a /\
     g_optimizer g = a_optimizer a) /\
  (forall (m : MomentsConfig) (a : AffineConfig),
     m ∈ moments_configs cs -> a ∈ affine_configs cs ->
     m_fixed_images m = a_fixed_images a /\
     m_moving_images m = a_moving_images a /\
     m_cc_kernel_size m = a_cc_kernel_size a).
Proof.
  destruct do_moments; run_exec; norm_calls;
    cbn [affine_configs greedy_configs moments_configs omap list_omap];
    (split; [intros ca Ha; invert_member; do 2 eexists; repeat split; reflexivity|]);
    (split; [intros ca cg Ha Hg; invert_member; repeat split; reflexivity|]);
    intros cm ca Hm Ha; invert_member; repeat split; reflexivity.
Qed.

(** *** The files of a completed run belong together *)

(** In a run that returns, the affine transform file holds the optimised
    affine registration whose matrix, detached, is the [init_affine] of the
    greedy registration that was set up; the forward warp, the inverse warp
    and the warped image all come from that one greedy registration after
    [optimize]; and with moments enabled the moments transform file holds
    the moments registration whose rigid transform, detached, is the
    [init_rigid] of the affine registration that was set up. *)
Theorem exported_files_come_from_one_chain
    (fixed_path moving_path out_prefix profile : string)
    (do_moments : bool) (w : World') :
  let r := run_outcome lib fixed_path moving_path out_prefix profile do_moments w in
  let w' := run_world lib fixed_path moving_path out_prefix profile do_moments w in
  let cs := new_calls w w' in
  r = Returns tt ->
  exists (fixed_img moving_img : image)
         (acfg : AffineConfig) (a0 a : affine_t) (t : tensor)
         (gcfg : GreedyConfig) (g0 reg : greedy_t) (moved : tensor),
    acfg ∈ affine_configs cs /\
    AffineRegistration lib acfg = Returns a0 /\
    affine_optimize lib a0 = Returns a /\
    files w' !! (out_prefix +:+ "0GenericAffine.mat") = Some (FileAffineTransform a) /\
    affine_get_affine_matrix lib a = Returns t /\
    gcfg ∈ greedy_configs cs /\
    g_init_affine gcfg = detach lib t /\
    GreedyRegistration lib gcfg = Returns g0 /\
    greedy_optimize lib g0 = Returns reg /\
    files w' !! (out_prefix +:+ "Def.nii.gz") = Some (FileWarp reg false) /\
    files w' !! (out_prefix +:+ "InvDef.nii.gz") = Some (FileWarp reg true) /\
    greedy_evaluate lib reg [fixed_img] [moving_img] = Returns moved /\
    files w' !! (out_prefix +:+ "Warped.nii.gz")
      = Some (FileImage (mkFake moved [fixed_img])) /\
    if do_moments then
      exists (mcfg : MomentsConfig) (m0 m : moments_t) (t0 : tensor),
        mcfg ∈ moments_configs cs /\
        MomentsRegistration lib mcfg = Returns m0 /\
        moments_optimize lib m0 = Returns m /\
        files w' !! (out_prefix +:+ "MomentsInit.mat")
          = Some (FileMomentsTransform m) /\
        moments_get_affine_init lib m = Returns t0 /\
        a_init_rigid acfg = Some (detach lib t0)
    else a_init_rigid acfg = None.
Proof.
  destruct do_moments; run_exec; try discriminate; intros _; norm_calls;
    unfold_paths;
    do 2 eexists;
    match goal with
    | Ha : AffineRegistration _ ?c = _, Hg : GreedyRegistration _ ?g = _ |- _ =>
        exists c; do 3 eexists; exists g; do 3 eexists
    end;
    do 13 (split; [chain_step|]).
  - match goal with
    | Hm : MomentsRegistration _ ?c = _ |- _ => exists c; do 3 eexists
    end.
    do 5 (split; [chain_step|]). reflexivity.
  - reflexivity.
Qed.

(** *** Two runs side by side *)

Lemma written_alike_start (seq : list string) (p : string)
    (m1 m2 : gmap string (File image tensor moments_t affine_t greedy_t)) :
  written_alike seq p m1 m2 m1 m2.
Proof. left. split; reflexivity. Qed.

Lemma written_alike_insert (seq : list string) (p k : string)
    (f : File image tensor moments_t affine_t greedy_t)
    (m1 m2 m1' m2' : gmap string (File image tensor moments_t affine_t greedy_t)) :
  k ∈ seq ->
  written_alike seq p m1 m2 m1' m2' ->
  written_alike seq p m1 m2 (<[k := f]> m1') (<[k := f]> m2').
Proof.
  intros Hk H. destruct (decide (k = p)) as [->|Hne].
  - right. split; [exact Hk|]. rewrite !lookup_insert_eq. reflexivity.
  - unfold written_alike. rewrite !lookup_insert_ne by exact Hne. exact H.
Qed.

Lemma profile_params_lower (profile other : string) :
  str_lower profile = str_lower other ->
  _get_profile_params profile = _get_profile_params other.
Proof. unfold _get_profile_params. intros ->. reflexivity. Qed.

(** Brings [new_stdout w w'] to the explicit list of the lines printed. *)
Ltac norm_stdout :=
  unfold new_stdout; cbn [stdout]; rewrite <- ?app_assoc; cbn [app];
  rewrite ?drop_app_length;
  rewrite ?drop_all.

(** Two lines of the two runs: the same line, or the same line around the
    two names. *)
Ltac same_line :=
  first [ left; reflexivity
        | right; do 2 eexists; split; reflexivity ].

(** Two runs, on profile names with the same lowercased form that standard
    output encodes alike, in worlds that hold the same two input files:
    same outcome, same calls, every path treated alike, and the same lines
    printed but for the name. *)
Lemma runs_agree
    (fixed_path moving_path out_prefix profile other : string)
    (do_moments : bool) (w1 w2 : World') :
  str_lower profile = str_lower other ->
  (forall before after : string,
     printable lib (before +:+ profile +:+ after)
     = printable lib (before +:+ other +:+ after)) ->
  files w1 !! fixed_path = files w2 !! fixed_path ->
  files w1 !! moving_path = files w2 !! moving_path ->
  run_outcome lib fixed_path moving_path out_prefix profile do_moments w1
  = run_outcome lib fixed_path moving_path out_prefix other do_moments w2 /\
  new_calls w1 (run_world lib fixed_path moving_path out_prefix profile do_moments w1)
  = new_calls w2 (run_world lib fixed_path moving_path out_prefix other do_moments w2) /\
  (forall p : string,
     written_alike (write_sequence out_prefix do_moments) p (files w1) (files w2)
       (files (run_world lib fixed_path moving_path out_prefix profile do_moments w1))
       (files (run_world lib fixed_path moving_path out_prefix other do_moments w2))) /\
  Forall2 (same_line_up_to_name profile other)
    (new_stdout w1
       (run_world lib fixed_path moving_path out_prefix profile do_moments w1))
    (new_stdout w2
       (run_world lib fixed_path moving_path out_prefix other do_moments w2)).
Proof.
  intros Hcase Hprint Hfixed Hmoving.
  apply profile_params_lower in Hcase.
  pose proof (Hprint "[FireANTs] Running moments initialization (profile='" "')"
              : printable lib (msg_moments_run profile)
                = printable lib (msg_moments_run other)) as Hp1.
  pose proof (Hprint "[FireANTs] Running affine registration with profile='" "'"
              : printable lib (msg_affine_run profile)
                = printable lib (msg_affine_run other)) as Hp2.
  pose proof (Hprint "[FireANTs] Running deformable registration with profile='" "'"
              : printable lib (msg_deformable_run profile)
                = printable lib (msg_deformable_run other)) as Hp3.
  clear Hprint.
  unfold run_outcome, run_world.
  destruct (run_fireants_registration lib fixed_path moving_path out_prefix
              profile do_moments w1) as [r1 w1'] eqn:E1.
  destruct (run_fireants_registration lib fixed_path moving_path out_prefix
              other do_moments w2) as [r2 w2'] eqn:E2.
  cbn [fst snd]. revert E1 E2.
  destruct do_moments; run_unfold; rewrite Hfixed, Hmoving, Hcase, ?Hp1, Hp2, Hp3;
    repeat (run_split; run_unfold);
    intros [= <- <-] [= <- <-]; cbn [files]; norm_calls;
    (split; [reflexivity|]); (split; [reflexivity|]);
    (split;
     [intros q; unfold write_sequence; cbn [app];
      repeat (apply written_alike_insert;
              [repeat first [apply list_elem_of_here | apply list_elem_of_further]|]);
      apply written_alike_start|]);
    norm_stdout;
    repeat (apply List.Forall2_cons; [same_line|]); apply List.Forall2_nil.
Qed.

(** *** Running again *)

(** When neither input path is one of the output paths, running the same
    registration a second time, in the world the first run left, ends the
    same way, makes the same calls, and leaves the file system exactly as
    the first run left it. *)
Theorem rerun_reproduces_files
    (fixed_path moving_path out_prefix profile : string)
    (do_moments : bool) (w : World') :
  fixed_path ∉ write_sequence out_prefix do_moments ->
  moving_path ∉ write_sequence out_prefix do_moments ->
  let w' := run_world lib fixed_path moving_path out_prefix profile do_moments w in
  let w'' := run_world lib fixed_path moving_path out_prefix profile do_moments w' in
  run_outcome lib fixed_path moving_path out_prefix profile do_moments w'
  = run_outcome lib fixed_path moving_path out_prefix profile do_moments w /\
  files w'' = files w' /\
  new_calls w' w'' = new_calls w w'.
Proof.
  intros Hf Hm w' w''.
  destruct (runs_agree fixed_path moving_path out_prefix profile profile
              do_moments w w eq_refl (fun _ _ => eq_refl) eq_refl eq_refl)
    as (_ & _ & Hsame & _).
  assert (Hkeep : forall p, p ∉ write_sequence out_prefix do_moments ->
                    files w !! p = files w' !! p).
  { intros p Hp. destruct (Hsame p) as [[H _]|[H _]];
      [symmetry; exact H | contradiction]. }
  destruct (runs_agree fixed_path moving_path out_prefix profile profile
              do_moments w w' eq_refl (fun _ _ => eq_refl) (Hkeep _ Hf) (Hkeep _ Hm))
    as (Hr & Hc & Hfiles & _).
  split; [symmetry; exact Hr|]. split; [|symmetry; exact Hc].
  apply map_eq. intros p.
  destruct (Hfiles p) as [[_ H]|[_ H]]; [exact H | symmetry; exact H].
Qed.

(** *** The letter case of the profile name *)

(** The progress lines that name the profile, as the source formats them. *)
Lemma running_lines_name_the_profile
    (fixed_path moving_path out_prefix profile : string)
    (do_moments : bool) (w : World') :
  let r := run_outcome lib fixed_path moving_path out_prefix profile do_moments w in
  let w' := run_world lib fixed_path moving_path out_prefix profile do_moments w in
  r = Returns tt ->
  ("[FireANTs] Running affine registration with profile='" +:+ profile +:+ "'")
    ∈ new_stdout w w' /\
  ("[FireANTs] Running deformable registration with profile='" +:+ profile +:+ "'")
    ∈ new_stdout w w' /\
  (do_moments = true ->
   ("[FireANTs] Running moments initialization (profile='" +:+ profile +:+ "')")
     ∈ new_stdout w w').
Proof.
  destruct do_moments; run_exec; try discriminate; intros _; norm_stdout;
    unfold msg_moments_run, msg_affine_run, msg_deformable_run;
    (split; [repeat first [apply list_elem_of_here | apply list_elem_of_further]|]);
    (split; [repeat first [apply list_elem_of_here | apply list_elem_of_further]|]);
    first [discriminate
          | intros _;
            repeat first [apply list_elem_of_here | apply list_elem_of_further]].
Qed.

(** Two profile names with the same lowercased form, which standard output
    encodes alike (a line with the one name prints exactly when the line
    with the other does), give in the same world the same outcome, the same
    library calls with the same arguments and the same file system. The
    name shows in the progress messages only: the two runs print the same
    lines but for the name, which each run prints as it was typed, and a
    run that returns has printed the lines that announce the affine and the
    deformable registration (and the moments initialization when enabled)
    with the name as typed. *)
Theorem profile_case_changes_messages_only
    (fixed_path moving_path out_prefix profile other : string)
    (do_moments : bool) (w : World') :
  let r := run_outcome lib fixed_path moving_path out_prefix profile do_moments w in
  let w1 := run_world lib fixed_path moving_path out_prefix profile do_moments w in
  let w2 := run_world lib fixed_path moving_path out_prefix other do_moments w in
  str_lower profile = str_lower other ->
  (forall before after : string,
     printable lib (before +:+ profile +:+ after)
     = printable lib (before +:+ other +:+ after)) ->
  r = run_outcome lib fixed_path moving_path out_prefix other do_moments w /\
  new_calls w w1 = new_calls w w2 /\
  files w1 = files w2 /\
  Forall2 (same_line_up_to_name profile other) (new_stdout w w1) (new_stdout w w2) /\
  (r = Returns tt ->
   ("[FireANTs] Running affine registration with profile='" +:+ profile +:+ "'")
     ∈ new_stdout w w1 /\
   ("[FireANTs] Running affine registration with profile='" +:+ other +:+ "'")
     ∈ new_stdout w w2 /\
   ("[FireANTs] Running deformable registration with profile='" +:+ profile +:+ "'")
     ∈ new_stdout w w1 /\
   ("[FireANTs] Running deformable registration with profile='" +:+ other +:+ "'")
     ∈ new_stdout w w2 /\
   (do_moments = true ->
    ("[FireANTs] Running moments initialization (profile='" +:+ profile +:+ "')")
      ∈ new_stdout w w1 /\
    ("[FireANTs] Running moments initialization (profile='" +:+ other +:+ "')")
      ∈ new_stdout w w2)).
Proof.
  intros r w1 w2 Hcase Hprint. subst r w1 w2.
  destruct (runs_agree fixed_path moving_path out_prefix profile other
              do_moments w w Hcase Hprint eq_refl eq_refl)
    as (Hr & Hc & Hfiles & Hout).
  split; [exact Hr|]. split; [exact Hc|].
  split.
  { apply map_eq. intros p.
    destruct (Hfiles p) as [[H1 H2]|[_ H]]; [congruence | exact H]. }
  split; [exact Hout|].
  intros Hret.
  destruct (running_lines_name_the_profile fixed_path moving_path out_prefix
              profile do_moments w Hret) as (Ha & Hd & Hm).
  rewrite Hr in Hret.
  destruct (running_lines_name_the_profile fixed_path moving_path out_prefix
              other do_moments w Hret) as (Ha' & Hd' & Hm').
  repeat split; auto.
Qed.

(** *** The command line *)

(** Whatever [main] is given, the files it loads are the absolute fixed
    path and then the absolute moving path, and the files it writes are, in
    this order, an initial segment of the output paths rooted at the
    absolute output prefix: six of them, or four under [--no-moments], in
    which case no call is made on a moments registration. When [main]
    returns, both inputs were loaded and every output path was written. *)
Theorem main_uses_absolute_paths
    (abspath : string -> string) (args : Namespace) (w : World') :
  let r := fst (main abspath lib args w) in
  let w' := snd (main abspath lib args w) in
  let cs := new_calls w w' in
  let seq := write_sequence (abspath (ns_out_prefix args))
               (negb (ns_no_moments args)) in
  load_paths cs `prefix_of` [abspath (ns_fixed args); abspath (ns_moving args)] /\
  write_paths cs `prefix_of` seq /\
  (ns_no_moments args = true ->
   length seq = 4%nat /\ Forall (fun c => is_moments_call c = false) cs) /\
  (r = Returns tt ->
   load_paths cs = [abspath (ns_fixed args); abspath (ns_moving args)] /\
   write_paths cs = seq).
Proof.
  unfold main.
  destruct (ns_no_moments args); cbn [negb]; run_exec; norm_calls;
    unfold write_sequence;
    cbn [load_paths write_paths write_paths_of omap list_omap map concat app];
    (split; [eexists; reflexivity|]);
    (split; [eexists; reflexivity|]);
    (split; [first [discriminate
                   | intros _; split; [reflexivity | repeat constructor]]|]);
    first [discriminate | intros _; split; reflexivity].
Qed.

End RunExtras.

(* ===================================================================== *)
(** ** The orchestrator on the concrete library *)
(* ===================================================================== *)

#[local] Existing Instance Demo.python.

(** C1 fails on the code. Without moments, in the default profile, let the
    deformable optimisation raise: the run raises, and the affine transform
    written before it is at the output prefix, where there was no file. *)
Lemma failed_run_leaves_affine_file :
  run_outcome Demo.deformable_fails "fixed.nii.gz" "moving.nii.gz" "out_" "default"
    false Demo.w0 = Raises "RuntimeError" /\
  files Demo.w0 !! "out_0GenericAffine.mat" = None /\
  files (run_world Demo.deformable_fails "fixed.nii.gz" "moving.nii.gz" "out_" "default"
           false Demo.w0) !! "out_0GenericAffine.mat"
  = Some (FileAffineTransform "affine*") /\
  ~ all_or_nothing "out_" false
      (run_outcome Demo.deformable_fails "fixed.nii.gz" "moving.nii.gz" "out_" "default"
         false Demo.w0)
      Demo.w0
      (run_world Demo.deformable_fails "fixed.nii.gz" "moving.nii.gz" "out_" "default"
         false Demo.w0).
Proof.
  split; [vm_compute; reflexivity|].
  split; [vm_compute; reflexivity|].
  split; [vm_compute; reflexivity|].
  intros H.
  assert (Hin : "out_0GenericAffine.mat" ∈ expected_outputs "out_" false).
  { cbn. apply list_elem_of_further, list_elem_of_here. }
  specialize (H (ex_intro _ "RuntimeError" eq_refl) _ Hin).
  vm_compute in H. discriminate H.
Qed.

Lemma failed_run_keeps_earlier_outputs_witness :
  run_outcome Demo.forward_write_fails "fixed.nii.gz" "moving.nii.gz" "out_" "default"
    false Demo.w0 = Raises "OSError" /\
  exists f,
    files (run_world Demo.forward_write_fails "fixed.nii.gz" "moving.nii.gz" "out_"
             "default" false Demo.w0) !! "out_Warped.nii.gz" = Some f /\
    holds_output "out_" "out_Warped.nii.gz" f.
Proof.
  split; [vm_compute; reflexivity|].
  apply (proj1 (proj2 (proj2
           (failed_run_keeps_earlier_outputs Demo.forward_write_fails
              "fixed.nii.gz" "moving.nii.gz" "out_" "default" false Demo.w0)))).
  - vm_compute. apply list_elem_of_further, list_elem_of_here.
  - vm_compute. reflexivity.
Defined.

Lemma profile_lookup_total_case_insensitive_witness :
  _get_profile_params "Bogus" = mkParams [4; 2; 1] [200; 100; 50] (3 # 1000) (1 # 2) /\
  str_lower Demo.quic_kelvin = "quick" /\
  _get_profile_params Demo.quic_kelvin
  = mkParams [4; 2; 1] [100; 50; 0] (3 # 1000) (1 # 2) /\
  _get_profile_params "bALANCED" = _get_profile_params "Balanced".
Proof.
  split.
  { apply (proj1 (proj2 (proj2 (proj2 (proj2
             (profile_lookup_total_case_insensitive "Bogus"))))));
      vm_compute; discriminate. }
  split; [vm_compute; reflexivity|].
  split.
  { apply (proj1 (proj2 (proj2
             (profile_lookup_total_case_insensitive Demo.quic_kelvin)))).
    vm_compute. reflexivity. }
  apply (proj1 (profile_lookup_total_case_insensitive "Balanced")).
  vm_compute. reflexivity.
Defined.

Lemma no_moments_skips_stage_witness :
  affine_seeds
    (new_calls Demo.w0
       (run_world Demo.working "fixed.nii.gz" "moving.nii.gz" "out_" "default"
          false Demo.w0))
  = [None].
Proof.
  apply (proj1 (proj2 (proj2
           (no_moments_skips_stage Demo.working
              "fixed.nii.gz" "moving.nii.gz" "out_" "default" Demo.w0)))).
  vm_compute. reflexivity.
Defined.

(** C4 fails on the code. With moments enabled, in the default profile, the
    moments registration is set up at scale 1, and the coarsest level of the
    profile is 4. *)
Lemma moments_scale_is_not_coarsest :
  moments_scales
    (new_calls Demo.w0
       (run_world Demo.working "fixed.nii.gz" "moving.nii.gz" "out_" "default"
          true Demo.w0)) = [1%Q] /\
  head (scales (_get_profile_params "default")) = Some 4 /\
  ~ moments_at_coarsest_level "default"
      (new_calls Demo.w0
         (run_world Demo.working "fixed.nii.gz" "moving.nii.gz" "out_" "default"
            true Demo.w0)).
Proof.
  split; [vm_compute; reflexivity|].
  split; [vm_compute; reflexivity|].
  intros H.
  destruct (H 1%Q) as (c & Hc & Heq).
  - vm_compute. apply list_elem_of_here.
  - vm_compute in Hc. injection Hc as <-.
    vm_compute in Heq. discriminate Heq.
Qed.

Lemma moments_runs_once_at_full_resolution_witness :
  moments_scales
    (new_calls Demo.w0
       (run_world Demo.working "fixed.nii.gz" "moving.nii.gz" "out_" "balanced"
          true Demo.w0)) = [1%Q].
Proof.
  apply (proj2 (proj2 (proj2 (proj2
           (moments_runs_once_at_full_resolution Demo.working
              "fixed.nii.gz" "moving.nii.gz" "out_" "balanced" true Demo.w0))))).
  vm_compute. reflexivity.
Defined.

Lemma completed_run_writes_expected_outputs_witness :
  run_outcome Demo.working "fixed.nii.gz" "moving.nii.gz" "out_" "default" true Demo.w0
  = Returns tt /\
  write_paths
    (new_calls Demo.w0
       (run_world Demo.working "fixed.nii.gz" "moving.nii.gz" "out_" "default"
          true Demo.w0))
  ≡ₚ expected_outputs "out_" true.
Proof.
  split; [vm_compute; reflexivity|].
  apply (completed_run_writes_expected_outputs Demo.working
           "fixed.nii.gz" "moving.nii.gz" "out_" "default" true Demo.w0).
  vm_compute. reflexivity.
Defined.

Lemma stages_run_in_order_and_seed_the_next_witness :
  run_outcome Demo.working "fixed.nii.gz" "moving.nii.gz" "out_" "quick" true Demo.w0
  = Returns tt /\
  (exists (acfg : AffineConfig) (gcfg : GreedyConfig),
     a_init_rigid acfg = Some "moments*.rigid" /\
     g_init_affine gcfg = "affine*.matrix" /\
     CAffineNew acfg
       ∈ new_calls Demo.w0
           (run_world Demo.working "fixed.nii.gz" "moving.nii.gz" "out_" "quick" true
              Demo.w0) /\
     CGreedyNew gcfg
       ∈ new_calls Demo.w0
           (run_world Demo.working "fixed.nii.gz" "moving.nii.gz" "out_" "quick" true
              Demo.w0)) /\
  exists j : nat,
    new_calls Demo.w0
      (run_world Demo.deformable_fails "fixed.nii.gz" "moving.nii.gz" "out_" "quick"
         true Demo.w0) !! j
    = Some (CAffineSave ["out_0GenericAffine.mat"]).
Proof.
  assert (Hret : run_outcome Demo.working "fixed.nii.gz" "moving.nii.gz" "out_" "quick"
                   true Demo.w0 = Returns tt) by (vm_compute; reflexivity).
  split; [exact Hret|]. split.
  - destruct (proj1 (stages_run_in_order_and_seed_the_next Demo.working
                       "fixed.nii.gz" "moving.nii.gz" "out_" "quick" true Demo.w0) Hret)
      as (fi & mi & acfg & gcfg & Hm & Ha & _ & Hcs).
    destruct Hm as (m0 & m & t & H1 & H2 & H3 & Hrigid).
    destruct Ha as (a0 & a & t' & H4 & H5 & H6 & Haffine).
    vm_compute in H1. injection H1 as <-.
    vm_compute in H2. injection H2 as <-.
    vm_compute in H3. injection H3 as <-.
    vm_compute in H4. injection H4 as <-.
    vm_compute in H5. injection H5 as <-.
    vm_compute in H6. injection H6 as <-.
    exists acfg, gcfg.
    split; [exact Hrigid|]. split; [exact Haffine|].
    rewrite Hcs. cbn [app].
    split; repeat first [apply list_elem_of_here | apply list_elem_of_further].
  - destruct (proj1 (proj2 (proj2
                (stages_run_in_order_and_seed_the_next Demo.deformable_fails
                   "fixed.nii.gz" "moving.nii.gz" "out_" "quick" true Demo.w0)))
                12%nat
                (greedy_config (_get_profile_params "quick") ["template"] ["subject"]
                   "affine*.matrix"))
      as (j & _ & Hj).
    + vm_compute. reflexivity.
    + exists j. exact Hj.
Defined.

Lemma runs_on_equal_inputs_agree_witness :
  files Demo.w0 !! "fixed.nii.gz" = files Demo.w1 !! "fixed.nii.gz" /\
  files Demo.w0 !! "moving.nii.gz" = files Demo.w1 !! "moving.nii.gz" /\
  run_outcome Demo.working "fixed.nii.gz" "moving.nii.gz" "out_" "test" true Demo.w0
  = run_outcome Demo.working "fixed.nii.gz" "moving.nii.gz" "out_" "test" true Demo.w1.
Proof.
  split; [vm_compute; reflexivity|].
  split; [vm_compute; reflexivity|].
  apply (runs_on_equal_inputs_agree Demo.working
           "fixed.nii.gz" "moving.nii.gz" "out_" "test" true Demo.w0 Demo.w1);
    vm_compute; reflexivity.
Defined.

Lemma failed_load_changes_nothing_witness :
  run_outcome Demo.working "fixed.nii.gz" "absent.nii.gz" "out_" "default" true Demo.w0
  = Raises "FileNotFoundError" /\
  files (run_world Demo.working "fixed.nii.gz" "absent.nii.gz" "out_" "default" true
           Demo.w0) = files Demo.w0 /\
  stdout (run_world Demo.working "fixed.nii.gz" "absent.nii.gz" "out_" "default" true
            Demo.w0) = stdout Demo.w0 /\
  new_calls Demo.w0
    (run_world Demo.working "fixed.nii.gz" "absent.nii.gz" "out_" "default" true Demo.w0)
  = [CLoad "fixed.nii.gz"; CLoad "absent.nii.gz"].
Proof.
  apply (proj2 (failed_load_changes_nothing Demo.working
                  "fixed.nii.gz" "absent.nii.gz" "out_" "default" true Demo.w0
                  "FileNotFoundError") "template");
    vm_compute; reflexivity.
Defined.

Lemma stages_share_images_and_pyramid_witness :
  exists fixed_img moving_img : string,
    Demo.load (files Demo.w0 !! "fixed.nii.gz") = Returns fixed_img /\
    Demo.load (files Demo.w0 !! "moving.nii.gz") = Returns moving_img /\
    a_fixed_images
      (affine_config (_get_profile_params "default") ["template"] ["subject"]
         (@None string)) = [fixed_img] /\
    a_moving_images
      (affine_config (_get_profile_params "default") ["template"] ["subject"]
         (@None string)) = [moving_img].
Proof.
  apply (proj1 (stages_share_images_and_pyramid Demo.working
                  "fixed.nii.gz" "moving.nii.gz" "out_" "default" false Demo.w0)).
  vm_compute. apply list_elem_of_here.
Defined.

Lemma exported_files_come_from_one_chain_witness :
  run_outcome Demo.working "fixed.nii.gz" "moving.nii.gz" "out_" "default" true Demo.w0
  = Returns tt /\
  exists (gcfg : GreedyConfig) (a : string) (t : string),
    gcfg ∈ greedy_configs
             (new_calls Demo.w0
                (run_world Demo.working "fixed.nii.gz" "moving.nii.gz" "out_" "default"
                   true Demo.w0)) /\
    files (run_world Demo.working "fixed.nii.gz" "moving.nii.gz" "out_" "default" true
             Demo.w0) !! "out_0GenericAffine.mat" = Some (FileAffineTransform a) /\
    affine_get_affine_matrix Demo.working a = Returns t /\
    g_init_affine gcfg = detach Demo.working t.
Proof.
  split; [vm_compute; reflexivity|].
  destruct (exported_files_come_from_one_chain Demo.working
              "fixed.nii.gz" "moving.nii.gz" "out_" "default" true Demo.w0)
    as (fi & mi & acfg & a0 & a & t & gcfg & g0 & reg & moved
        & _ & _ & _ & Hfile & Hmatrix & Hin & Hseed & _).
  - vm_compute. reflexivity.
  - exists gcfg, a, t. repeat split; assumption.
Defined.

Lemma rerun_reproduces_files_witness :
  ("fixed.nii.gz" ∉ write_sequence "out_" true) /\
  ("moving.nii.gz" ∉ write_sequence "out_" true) /\
  files (run_world Demo.working "fixed.nii.gz" "moving.nii.gz" "out_" "default" true
           (run_world Demo.working "fixed.nii.gz" "moving.nii.gz" "out_" "default" true
              Demo.w0))
  = files (run_world Demo.working "fixed.nii.gz" "moving.nii.gz" "out_" "default" true
             Demo.w0).
Proof.
  assert (Hf : "fixed.nii.gz" ∉ write_sequence "out_" true).
  { cbn. rewrite !not_elem_of_cons. repeat split; try discriminate.
    apply not_elem_of_nil. }
  assert (Hm : "moving.nii.gz" ∉ write_sequence "out_" true).
  { cbn. rewrite !not_elem_of_cons. repeat split; try discriminate.
    apply not_elem_of_nil. }
  split; [exact Hf|]. split; [exact Hm|].
  apply (rerun_reproduces_files Demo.working
           "fixed.nii.gz" "moving.nii.gz" "out_" "default" true Demo.w0 Hf Hm).
Defined.

Lemma profile_case_changes_messages_only_witness :
  str_lower "Balanced" = str_lower "BALANCED" /\
  files (run_world Demo.working "fixed.nii.gz" "moving.nii.gz" "out_" "Balanced" true
           Demo.w0)
  = files (run_world Demo.working "fixed.nii.gz" "moving.nii.gz" "out_" "BALANCED" true
             Demo.w0) /\
  "[FireANTs] Running affine registration with profile='BALANCED'"
    ∈ new_stdout Demo.w0
        (run_world Demo.working "fixed.nii.gz" "moving.nii.gz" "out_" "BALANCED" true
           Demo.w0).
Proof.
  assert (Hcase : str_lower "Balanced" = str_lower "BALANCED")
    by (vm_compute; reflexivity).
  destruct (profile_case_changes_messages_only Demo.working
              "fixed.nii.gz" "moving.nii.gz" "out_" "Balanced" "BALANCED" true Demo.w0
              Hcase (fun _ _ => eq_refl)) as (_ & _ & Hfiles & _ & Hlines).
  split; [exact Hcase|]. split; [exact Hfiles|].
  destruct Hlines as (_ & Hother & _); [vm_compute; reflexivity | exact Hother].
Defined.

(** Why the two names must print alike: on a standard output that encodes
    ASCII only, the profile "quick" runs to the end and the same profile
    typed with a Kelvin sign stops at the first line that names it. *)
Example unprintable_profile_name_stops_the_run :
  str_lower Demo.quic_kelvin = str_lower "quick" /\
  run_outcome Demo.ascii_terminal "fixed.nii.gz" "moving.nii.gz" "out_" "quick" true
    Demo.w0 = Returns tt /\
  run_outcome Demo.ascii_terminal "fixed.nii.gz" "moving.nii.gz" "out_"
    Demo.quic_kelvin true Demo.w0 = Raises "UnicodeEncodeError".
Proof. repeat split; vm_compute; reflexivity. Qed.

Lemma main_uses_absolute_paths_witness :
  fst (main Demo.abspath Demo.working
         (mkNamespace "fixed.nii.gz" "moving.nii.gz" "out_" "quick" true) Demo.w_work)
  = Returns tt /\
  write_paths
    (new_calls Demo.w_work
       (snd (main Demo.abspath Demo.working
               (mkNamespace "fixed.nii.gz" "moving.nii.gz" "out_" "quick" true)
               Demo.w_work)))
  = ["/work/out_0GenericAffine.mat"; "/work/out_Warped.nii.gz";
     "/work/out_Def.nii.gz"; "/work/out_InvDef.nii.gz"].
Proof.
  split; [vm_compute; reflexivity|].
  destruct (main_uses_absolute_paths Demo.working Demo.abspath
              (mkNamespace "fixed.nii.gz" "moving.nii.gz" "out_" "quick" true)
              Demo.w_work) as (_ & _ & _ & Hret).
  destruct Hret as [_ Hw]; [vm_compute; reflexivity | exact Hw].
Defined.
